(** * Artheris ground-cover worker: [src/ws_server/pdi.py]

    A shallow embedding of the image-classification worker and the proofs
    of its properties.

    - NumPy [uint8] planes are lists of rows of [Z] (values [0..255]);
      colour images are lists of rows of channel tuples.
    - [float32]/[float64] quantities are exact rationals ([Q]).  The
      comparisons that decide the masks (the index against 0.03, an area
      against a fraction of the pixel count) are between quotients of
      small integers and constants they cannot round across, so the
      masks are those of the float program.  The percentages are the
      exact values the doubles of the code approximate: a printed
      percentage can differ from Python's in its last decimal where the
      exact value is a rounding tie, and a sum or difference of
      percentages can differ from the code's in the last unit of the
      double; what is proved of the percentages are bounds and
      precisions that hold on the doubles as well, and equalities are
      stated on pixel counts.
    - OpenCV, [base64.b64decode] and [repr] of floats are library code:
      they are parameters of the pipeline (records of operations), and a
      reference model of the mask operations is given for evaluation.
    - [time.time()] reads an explicit clock carried by the world state;
      exceptions are values of a small state-and-error monad. *)

From Stdlib Require Import ZArith QArith Qround String Ascii Lia Lqa List.
From Stdlib Require Import DecimalString.
From Stdlib Require Strings.Byte.
From stdpp Require Import base list.
Import ListNotations.

Close Scope Q_scope.
Local Open Scope Z_scope.

(** ** Arrays *)

(** A single-channel [uint8] array of shape (alto, ancho). *)
Abbreviation Plano := (list (list Z)).
(** A pixel of a three-channel array, in the channel order of the array
    (B,G,R for BGR images, H,S,V for HSV images). *)
Abbreviation Pixel3 := (Z * Z * Z)%type.
Abbreviation Imagen := (list (list (Z * Z * Z))).
(** A pixel of a four-channel (B,G,R,A) array. *)
Abbreviation Pixel4 := (Z * Z * Z * Z)%type.
Abbreviation Imagen4 := (list (list (Z * Z * Z * Z))).

(** [img.shape[0]] and [img.shape[1]]. *)
Definition alto {A} (img : list (list A)) : nat := length img.
Definition ancho {A} (img : list (list A)) : nat :=
  match img with
  | [] => 0%nat
  | fila :: _ => length fila
  end.

(** An array of shape (a, n): [a] rows of [n] entries each. *)
Definition es_plano {A} (a n : nat) (m : list (list A)) : Prop :=
  length m = a /\ Forall (fun fila => length fila = n) m.

(** [m[i, j]], when the index is in range. *)
Definition pixel {A} (m : list (list A)) (i j : nat) : option A :=
  m !! i ≫= (fun fila => fila !! j).

(** Element-wise application of a scalar function, as NumPy and OpenCV
    broadcast it over an array, and of a binary one over two arrays. *)
Definition mapa2 {A B} (f : A -> B) (m : list (list A)) : list (list B) :=
  fmap (M := list) (fmap (M := list) f) m.
Definition zip2 {A B C} (f : A -> B -> C)
  (m1 : list (list A)) (m2 : list (list B)) : list (list C) :=
  zip_with (zip_with f) m1 m2.

(** ** Element-wise [uint8] operations of OpenCV *)

(** [~x] on eight bits. *)
Definition not8 (x : Z) : Z := Z.land (Z.lnot x) 255.

Definition bitwise_and (a b : Plano) : Plano := zip2 Z.land a b.
Definition bitwise_or (a b : Plano) : Plano := zip2 Z.lor a b.
Definition bitwise_not (a : Plano) : Plano := mapa2 not8 a.

(** [cv2.countNonZero]. *)
Definition countNonZero (m : Plano) : Z :=
  Z.of_nat (length (List.filter (fun x => negb (x =? 0)) (concat m))).

(** [cv2.split] and [cv2.merge] on three channels. *)
Definition canal1 (img : Imagen) : Plano := mapa2 (fun p => p.1.1) img.
Definition canal2 (img : Imagen) : Plano := mapa2 (fun p => p.1.2) img.
Definition canal3 (img : Imagen) : Plano := mapa2 (fun p => p.2) img.
Definition merge (c1 c2 c3 : Plano) : Imagen :=
  zip2 (fun p12 z => (p12.1, p12.2, z)) (zip2 pair c1 c2) c3.

(** [cv2.inRange(src, lower, upper)]: 255 where every channel lies in the
    inclusive interval, 0 elsewhere. *)
Definition en_rango (lower upper p : Pixel3) : Z :=
  let '(l1, l2, l3) := lower in
  let '(u1, u2, u3) := upper in
  let '(p1, p2, p3) := p in
  if (l1 <=? p1) && (p1 <=? u1) && (l2 <=? p2) && (p2 <=? u2)
     && (l3 <=? p3) && (p3 <=? u3)
  then 255 else 0.

Definition inRange (src : Imagen) (lower upper : Pixel3) : Plano :=
  mapa2 (en_rango lower upper) src.

(** ** Layer 1: colour segmentation (lines 38-61) *)

Definition lower_green : Pixel3 := (25, 5, 5).
Definition upper_green : Pixel3 := (100, 255, 255).
Definition lower_brown : Pixel3 := (5, 40, 20).
Definition upper_brown : Pixel3 := (25, 200, 150).
Definition lower_red1 : Pixel3 := (0, 50, 20).
Definition upper_red1 : Pixel3 := (10, 200, 120).
Definition lower_red2 : Pixel3 := (170, 50, 20).
Definition upper_red2 : Pixel3 := (180, 200, 120).

Definition mascara_pasto_color (hsv : Imagen) : Plano :=
  inRange hsv lower_green upper_green.

Definition mascara_tierra_color (hsv : Imagen) : Plano :=
  let mascara_tierra1 := inRange hsv lower_brown upper_brown in
  let mascara_tierra2 := inRange hsv lower_red1 upper_red1 in
  let mascara_tierra3 := inRange hsv lower_red2 upper_red2 in
  let mascara_tierra_color := bitwise_or mascara_tierra1 mascara_tierra2 in
  bitwise_or mascara_tierra_color mascara_tierra3.

(** ** Layer 2: vegetation index (lines 63-71) *)

Definition Qlt_bool (x y : Q) : bool := negb (Qle_bool y x).

(** VARI of one pixel of the corrected image, channels in B,G,R order:
    [denominador = g + r - b], replaced by [1e-4] where it is zero;
    [vari = (g - r) / denominador]. *)
Definition vari (p : Pixel3) : Q :=
  let '(b, g, r) := p in
  let denominador := (inject_Z g + inject_Z r - inject_Z b)%Q in
  let denominador :=
    if Qeq_bool denominador 0 then (1 # 10000)%Q else denominador in
  ((inject_Z g - inject_Z r) / denominador)%Q.

(** [np.uint8(255 * (vari > 0.03))]. *)
Definition umbral_vari (p : Pixel3) : Z :=
  if Qlt_bool (3 # 100) (vari p) then 255 else 0.

Definition mascara_vegetacion_vi (img_corregida : Imagen) : Plano :=
  mapa2 umbral_vari img_corregida.

(** ** Mask fusion (lines 80-81) *)

Definition fusion_pasto (pasto_color vegetacion_vi : Plano) : Plano :=
  bitwise_and pasto_color vegetacion_vi.

Definition fusion_tierra (tierra_color pasto_final : Plano) : Plano :=
  bitwise_and tierra_color (bitwise_not pasto_final).

(** ** OpenCV as a parameter

    The pipeline calls OpenCV for colour conversion, contrast
    equalisation, morphology, labelling, blending and the JPEG codec.
    Each group of calls is a record of operations; the pipeline is written
    once, over any implementation of them. *)

Inductive ColorCode := COLOR_BGR2LAB | COLOR_LAB2BGR | COLOR_BGR2HSV.
Inductive MorphOp := MORPH_OPEN | MORPH_CLOSE.

(** What [cv2.imdecode(buf, cv2.IMREAD_COLOR)] can do: raise [cv2.error]
    (an empty buffer), return [None] (not an image), or return a BGR
    array. *)
Inductive ResultadoImdecode :=
| ImdecodeError (descripcion : string)
| ImdecodeNone
| ImdecodeOk (img : Imagen).

Record Cv2Codec := {
  imdecode : list Byte.byte -> ResultadoImdecode;
  (** [cv2.imencode('.jpg', img, [IMWRITE_JPEG_QUALITY, q])[1]] *)
  imencode_jpg : Imagen4 -> Z -> list Byte.byte
}.

Record Cv2Color := {
  cvtColor : Imagen -> ColorCode -> Imagen;
  (** [cv2.createCLAHE(clipLimit=2.0, tileGridSize=(8, 8)).apply] *)
  clahe_apply : Plano -> Plano;
  equalizeHist : Plano -> Plano;
  (** [cv2.cvtColor(img, cv2.COLOR_BGR2BGRA)] *)
  cvtColor_BGR2BGRA : Imagen -> Imagen4;
  addWeighted : Imagen4 -> Q -> Imagen4 -> Q -> Q -> Imagen4
}.

(** The result of [cv2.connectedComponentsWithStats]: the number of
    labels (background included), the label of every pixel, and the
    [CC_STAT_AREA] column of [stats]. *)
Record Componentes := {
  num_labels : nat;
  labels : list (list nat);
  stats_area : list Z
}.

Record Cv2Morph := {
  morphologyEx : Plano -> MorphOp -> Plano -> Plano;
  dilate : Plano -> Plano -> nat -> Plano;
  GaussianBlur : Plano -> nat * nat -> Q -> Plano;
  connectedComponentsWithStats : Plano -> nat -> Componentes
}.

(** ** Cleanup and area accounting (lines 83-107, 145-155) *)

(** [mask[labels == i] = 0]. *)
Definition borrar_etiqueta (mask : Plano) (etiquetas : list (list nat))
  (i : nat) : Plano :=
  zip2 (fun m l => if Nat.eqb l i then 0 else m) mask etiquetas.

(** [stats[i, cv2.CC_STAT_AREA]]; OpenCV returns one row per label, so
    the index is in range for every [i < num_labels]. *)
Definition area_de (cc : Componentes) (i : nat) : Z :=
  default 0 (stats_area cc !! i).

(** The body of the loop of [eliminar_pequenos_objetos]. *)
Definition paso_eliminar (cc : Componentes) (min_area : Q)
  (mask : Plano) (i : nat) : Plano :=
  if Qlt_bool (inject_Z (area_de cc i)) min_area
  then borrar_etiqueta mask (labels cc) i
  else mask.

Definition eliminar_pequenos_objetos (cv : Cv2Morph) (mask : Plano)
  (min_area : Q) : Plano :=
  let cc := connectedComponentsWithStats cv mask 8 in
  fold_left (paso_eliminar cc min_area) (seq 1 (num_labels cc - 1)) mask.

(** [np.ones((5, 5), np.uint8)]. *)
Definition kernel : Plano := replicate 5 (replicate 5 1).

(** Lines 89-93: the grass mask. *)
Definition limpiar_pasto (cv : Cv2Morph) (total_pixels : Z)
  (mascara_pasto_final : Plano) : Plano :=
  let mascara_pasto_final :=
    morphologyEx cv mascara_pasto_final MORPH_OPEN kernel in
  let mascara_pasto_final :=
    morphologyEx cv mascara_pasto_final MORPH_CLOSE kernel in
  let mascara_pasto_final := dilate cv mascara_pasto_final kernel 1 in
  let mascara_pasto_final :=
    eliminar_pequenos_objetos cv mascara_pasto_final
      (inject_Z total_pixels * (1 # 1000))%Q in
  GaussianBlur cv mascara_pasto_final (5%nat, 5%nat) 0%Q.

(** Lines 96-99: the soil mask, before the final exclusion. *)
Definition limpiar_tierra (cv : Cv2Morph) (total_pixels : Z)
  (mascara_tierra_final : Plano) : Plano :=
  let mascara_tierra_final :=
    morphologyEx cv mascara_tierra_final MORPH_OPEN kernel in
  let mascara_tierra_final :=
    morphologyEx cv mascara_tierra_final MORPH_CLOSE kernel in
  let mascara_tierra_final :=
    eliminar_pequenos_objetos cv mascara_tierra_final
      (inject_Z total_pixels * (5 # 1000))%Q in
  GaussianBlur cv mascara_tierra_final (5%nat, 5%nat) 0%Q.

(** Line 102: [bitwise_and(tierra, bitwise_not(pasto))]. *)
Definition excluir (mascara_tierra_final mascara_pasto_final : Plano) : Plano :=
  bitwise_and mascara_tierra_final (bitwise_not mascara_pasto_final).

(** Lines 80-102: from the three raw masks to the two final masks
    [(mascara_pasto_final, mascara_tierra_final)]. *)
Definition mascaras_finales (cv : Cv2Morph) (total_pixels : Z)
  (pasto_color tierra_color vegetacion_vi : Plano) : Plano * Plano :=
  let mascara_pasto_final := fusion_pasto pasto_color vegetacion_vi in
  let mascara_tierra_final := fusion_tierra tierra_color mascara_pasto_final in
  let mascara_pasto_final := limpiar_pasto cv total_pixels mascara_pasto_final in
  let mascara_tierra_final := limpiar_tierra cv total_pixels mascara_tierra_final in
  let mascara_tierra_final := excluir mascara_tierra_final mascara_pasto_final in
  (mascara_pasto_final, mascara_tierra_final).

(** Lines 38-102 on the HSV image and the corrected BGR image. *)
Definition clasificar (cv : Cv2Morph) (total_pixels : Z)
  (hsv img_corregida : Imagen) : Plano * Plano :=
  mascaras_finales cv total_pixels
    (mascara_pasto_color hsv) (mascara_tierra_color hsv)
    (mascara_vegetacion_vi img_corregida).

(** *** Python numbers

    [porcentaje_mascara] returns the [int] 0 or a [float]; [max(0, x)]
    returns the [int] 0 or [x]; [json.dumps] prints the two differently. *)
Inductive PyNum := PyInt (z : Z) | PyFloat (x : Q).

Definition valor (n : PyNum) : Q :=
  match n with
  | PyInt z => inject_Z z
  | PyFloat x => x
  end.

(** [a - b]: an [int] only when both operands are. *)
Definition py_sub (a b : PyNum) : PyNum :=
  match a, b with
  | PyInt x, PyInt y => PyInt (x - y)
  | _, _ => PyFloat (valor a - valor b)%Q
  end.

(** [max(0, x)]: [x] if [x > 0], else the first argument. *)
Definition py_max0 (x : PyNum) : PyNum :=
  if Qlt_bool 0 (valor x) then x else PyInt 0.

(** Rounding to the nearest integer, ties to even. *)
Definition redondear_par (x : Q) : Z :=
  let f := Qfloor x in
  let r := (x - inject_Z f)%Q in
  if Qlt_bool r (1 # 2) then f
  else if Qlt_bool (1 # 2) r then f + 1
  else if Z.even f then f else f + 1.

(** [round(x, ndigits)]: an [int] stays as it is; a [float] is rounded
    to [ndigits] decimals. *)
Definition py_round (x : PyNum) (ndigits : nat) : PyNum :=
  match x with
  | PyInt z => PyInt z
  | PyFloat q =>
      let escala := 10 ^ Z.of_nat ndigits in
      PyFloat (inject_Z (redondear_par (q * inject_Z escala)) / inject_Z escala)%Q
  end.

(** Lines 152-155.  The quotient and the product are exact here; line
    155 rounds each to a double. *)
Definition porcentaje_mascara (mask : Plano) (total_pixels : Z) : PyNum :=
  if total_pixels =? 0 then PyInt 0
  else PyFloat ((inject_Z (countNonZero mask) / inject_Z total_pixels) * 100)%Q.

(** Line 107, with exact subtractions: where the two percentages add up
    to 100 the code's doubles can leave a remainder of the order of
    1e-14 instead of 0. *)
Definition porcentaje_otros (porc_pasto porc_tierra : PyNum) : PyNum :=
  py_max0 (py_sub (py_sub (PyInt 100) porc_pasto) porc_tierra).

(** ** Overlay (lines 109-117) *)

Definition color_pasto : Pixel4 := (200, 180, 60, 110).
Definition color_tierra : Pixel4 := (120, 87, 120, 110).

(** [np.zeros((alto, ancho, 4), dtype=np.uint8)]. *)
Definition zeros4 (a n : nat) : Imagen4 := replicate a (replicate n (0, 0, 0, 0)).

(** [overlay[mask > 0] = color]; the mask has the shape of the canvas. *)
Definition pintar (overlay : Imagen4) (mask : Plano) (color : Pixel4) : Imagen4 :=
  zip2 (fun px m => if 0 <? m then color else px) overlay mask.

Definition crear_overlay (a n : nat)
  (mascara_pasto_final mascara_tierra_final : Plano) : Imagen4 :=
  let overlay := zeros4 a n in
  let overlay := pintar overlay mascara_pasto_final color_pasto in
  pintar overlay mascara_tierra_final color_tierra.

(** ** Python strings, base64 and JSON *)

Local Open Scope string_scope.

Definition len (s : string) : Z := Z.of_nat (String.length s).

(** [s.split(',')]: never empty. *)
Fixpoint split_coma (s : string) : list string :=
  match s with
  | EmptyString => [""]
  | String c resto =>
      match split_coma resto with
      | seg :: segs =>
          if Ascii.eqb c "," then "" :: seg :: segs else String c seg :: segs
      | [] => [String c ""]
      end
  end.

(** [s.split(',')[-1]]. *)
Definition ultimo_segmento (s : string) : string := List.last (split_coma s) "".

(** [str.isspace] on code points below 256. *)
Definition es_espacio (c : ascii) : bool :=
  let n := N_of_ascii c in
  ((9 <=? n) && (n <=? 13) || (28 <=? n) && (n <=? 32)
   || (n =? 133) || (n =? 160))%N.

Fixpoint lstrip (s : string) : string :=
  match s with
  | EmptyString => ""
  | String c resto => if es_espacio c then lstrip resto else s
  end.

(** [rstrip]: a character is dropped when it and everything after it is
    white space. *)
Fixpoint rstrip (s : string) : string :=
  match s with
  | EmptyString => ""
  | String c resto =>
      match rstrip resto with
      | EmptyString => if es_espacio c then "" else String c ""
      | r => String c r
      end
  end.

Definition strip (s : string) : string := rstrip (lstrip s).

(** *** [base64.b64encode] *)

Definition alfabeto_b64 : string :=
  "ABCDEFGHIJKLMNOPQRSTUVWXYZabcdefghijklmnopqrstuvwxyz0123456789+/".

Definition b64_char (n : N) : ascii :=
  match String.get (N.to_nat n) alfabeto_b64 with
  | Some c => c
  | None => "="%char
  end.

Fixpoint b64encode (bs : list Byte.byte) : string :=
  match bs with
  | [] => ""
  | [a] =>
      let x := Byte.to_N a in
      String (b64_char (x / 4)) (String (b64_char (x mod 4 * 16)) "==")
  | [a; b] =>
      let x := Byte.to_N a in
      let y := Byte.to_N b in
      String (b64_char (x / 4))
        (String (b64_char (x mod 4 * 16 + y / 16))
           (String (b64_char (y mod 16 * 4)) "="))
  | a :: b :: c :: resto =>
      let x := Byte.to_N a in
      let y := Byte.to_N b in
      let z := Byte.to_N c in
      String (b64_char (x / 4))
        (String (b64_char (x mod 4 * 16 + y / 16))
           (String (b64_char (y mod 16 * 4 + z / 64))
              (String (b64_char (z mod 64)) (b64encode resto))))
  end%N.

(** *** [json.dumps] *)

Inductive JValor := JNum (n : PyNum) | JStr (s : string).

(** A [dict] in insertion order. *)
Abbreviation Dict := (list (string * JValor)).

(** [d[k] = v]: the value is replaced where the key is, a new key goes
    last. *)
Fixpoint dict_set (d : Dict) (k : string) (v : JValor) : Dict :=
  match d with
  | [] => [(k, v)]
  | (k', v') :: resto =>
      if String.eqb k' k then (k, v) :: resto
      else (k', v') :: dict_set resto k v
  end.

Fixpoint dict_get (d : Dict) (k : string) : option JValor :=
  match d with
  | [] => None
  | (k', v') :: resto => if String.eqb k' k then Some v' else dict_get resto k
  end.

Definition comilla : ascii := "034"%char.
Definition barra : ascii := "092"%char.

Definition hex_char (n : N) : ascii :=
  match String.get (N.to_nat n) "0123456789abcdef" with
  | Some c => c
  | None => "0"%char
  end.

(** The escape of one character with [ensure_ascii=True]: printable ASCII
    stays, the quote and the backslash get a backslash, the usual control
    characters their letter, everything else [\u00xx]. *)
Definition json_escape_char (c : ascii) : string :=
  let n := N_of_ascii c in
  if Ascii.eqb c comilla then String barra (String comilla "")
  else if Ascii.eqb c barra then String barra (String barra "")
  else if (n =? 10)%N then String barra "n"
  else if (n =? 13)%N then String barra "r"
  else if (n =? 9)%N then String barra "t"
  else if (n =? 8)%N then String barra "b"
  else if (n =? 12)%N then String barra "f"
  else if ((32 <=? n) && (n <=? 126))%N then String c ""
  else String barra
         (String "u" (String "0" (String "0"
            (String (hex_char (n / 16)) (String (hex_char (n mod 16)) ""))))).

Fixpoint json_escape (s : string) : string :=
  match s with
  | EmptyString => ""
  | String c resto => json_escape_char c ++ json_escape resto
  end.

Definition json_string (s : string) : string :=
  String comilla (json_escape s ++ String comilla "").

(** [repr] of an [int]. *)
Definition repr_int (z : Z) : string := NilZero.string_of_int (Z.to_int z).

(** What the pipeline uses of the Python runtime and cannot be written
    here: [base64.b64decode] ([inl] is [str(e)] of the [binascii.Error]
    it raised) and [repr] of a [float]. *)
Record PyLib := {
  b64decode : string -> string + list Byte.byte;
  repr_float : Q -> string
}.

Section Json.
Variable py : PyLib.

Definition json_valor (v : JValor) : string :=
  match v with
  | JNum (PyInt z) => repr_int z
  | JNum (PyFloat x) => repr_float py x
  | JStr s => json_string s
  end.

Definition json_item (kv : string * JValor) : string :=
  json_string kv.1 ++ ": " ++ json_valor kv.2.

Fixpoint json_items (d : Dict) : string :=
  match d with
  | [] => ""
  | [kv] => json_item kv
  | kv :: resto => json_item kv ++ ", " ++ json_items resto
  end.

Definition json_dumps (d : Dict) : string := "{" ++ json_items d ++ "}".

End Json.

(** ** Effects: the clock, the standard streams and exceptions *)

Inductive Excepcion :=
| ValueError (mensaje : string)
| BinasciiError (mensaje : string)
| Cv2Error (mensaje : string)
| Exception_ (mensaje : string).

(** [str(e)]. *)
Definition str_e (e : Excepcion) : string :=
  match e with
  | ValueError m | BinasciiError m | Cv2Error m | Exception_ m => m
  end.

(** The world a request runs in: [reloj k] is what the [k]-th call of
    [time.time()] returns, [tics] counts the calls made so far. *)
Record Mundo := {
  reloj : nat -> Q;
  tics : nat;
  stdin : list string;
  stdout : list string;
  stderr : list string
}.

Definition M (A : Type) : Type := Mundo -> (Excepcion + A) * Mundo.

#[global] Instance M_ret : MRet M := fun A a w => (inr a, w).
#[global] Instance M_bind : MBind M := fun A B f m w =>
  match m w with
  | (inl e, w') => (inl e, w')
  | (inr a, w') => f a w'
  end.

Definition raise {A} (e : Excepcion) : M A := fun w => (inl e, w).

(** [try: m  except Exception as e: h e]. *)
Definition try_except {A} (m : M A) (h : Excepcion -> M A) : M A := fun w =>
  match m w with
  | (inl e, w') => h e w'
  | (inr a, w') => (inr a, w')
  end.

Definition time_time : M Q := fun w =>
  (inr (reloj w (tics w)),
   {| reloj := reloj w; tics := S (tics w); stdin := stdin w;
      stdout := stdout w; stderr := stderr w |}).

(** [time.sleep] returns later; nothing the model records changes. *)
Definition time_sleep (segundos : Q) : M unit := mret tt.

(** [sys.stdin.readline()]: the next line, or the empty string at end of
    input. *)
Definition readline : M string := fun w =>
  match stdin w with
  | [] => (inr "", w)
  | l :: resto =>
      (inr l, {| reloj := reloj w; tics := tics w; stdin := resto;
                 stdout := stdout w; stderr := stderr w |})
  end.

Definition stdout_write (s : string) : M unit := fun w =>
  (inr tt, {| reloj := reloj w; tics := tics w; stdin := stdin w;
              stdout := (stdout w ++ [s])%list; stderr := stderr w |}).

Definition stderr_write (s : string) : M unit := fun w =>
  (inr tt, {| reloj := reloj w; tics := tics w; stdin := stdin w;
              stdout := stdout w; stderr := (stderr w ++ [s])%list |}).

(** ** [procesar_imagen] *)

Definition salto : string := String "010"%char "".

(** "Imagen nula después de decodificar", one character per code point. *)
Definition mensaje_imagen_nula : string :=
  "Imagen nula despu" ++ String "233"%char "s de decodificar".

(** What lines 20-121 compute from the decoded image. *)
Record Analisis := {
  mascara_pasto_final : Plano;
  mascara_tierra_final : Plano;
  porc_pasto : PyNum;
  porc_tierra : PyNum;
  porc_otros : PyNum;
  overlay : Imagen4;
  img_final : Imagen4
}.

(** The response of line 128 with a given overlay string and time. *)
Definition respuesta (pasto tierra otros : PyNum) (overlay_image : string)
  (timestamp : Q) : Dict :=
  [ ("pasto", JNum (py_round pasto 2));
    ("tierra", JNum (py_round tierra 2));
    ("otros", JNum (py_round otros 2));
    ("overlay_image", JStr overlay_image);
    ("timestamp", JNum (PyFloat timestamp)) ].

Section Pipeline.
Variable py : PyLib.
Variable codec : Cv2Codec.
Variable color : Cv2Color.
Variable morph : Cv2Morph.

(** Lines 11-18. *)
Definition decodificar (base64_data_str : string) : M Imagen :=
  try_except
    (match b64decode py (ultimo_segmento base64_data_str) with
     | inl descripcion => raise (BinasciiError descripcion)
     | inr img_data =>
         match imdecode codec img_data with
         | ImdecodeError descripcion => raise (Cv2Error descripcion)
         | ImdecodeNone => raise (ValueError mensaje_imagen_nula)
         | ImdecodeOk img => mret img
         end
     end)
    (fun e => raise (ValueError ("Error decodificando imagen: " ++ str_e e))).

(** Lines 23-28: CLAHE on the lightness channel. *)
Definition corregir_iluminacion (img : Imagen) : Imagen :=
  let lab := cvtColor color img COLOR_BGR2LAB in
  let '(l, a, b) := (canal1 lab, canal2 lab, canal3 lab) in
  let cl := clahe_apply color l in
  let lab := merge cl a b in
  cvtColor color lab COLOR_LAB2BGR.

(** Lines 33-36: HSV with the value channel equalised. *)
Definition a_hsv (img_corregida : Imagen) : Imagen :=
  let hsv := cvtColor color img_corregida COLOR_BGR2HSV in
  let '(h, s, v) := (canal1 hsv, canal2 hsv, canal3 hsv) in
  let v := equalizeHist color v in
  merge h s v.

(** Lines 20-121.  The texture mask of lines 73-79 is bound and never
    read, so it has no counterpart here. *)
Definition analizar (img : Imagen) : Analisis :=
  let total_pixels := Z.of_nat (alto img) * Z.of_nat (ancho img) in
  let img_corregida := corregir_iluminacion img in
  let hsv := a_hsv img_corregida in
  let '(mascara_pasto_final, mascara_tierra_final) :=
    clasificar morph total_pixels hsv img_corregida in
  let porc_pasto := porcentaje_mascara mascara_pasto_final total_pixels in
  let porc_tierra := porcentaje_mascara mascara_tierra_final total_pixels in
  let porc_otros := porcentaje_otros porc_pasto porc_tierra in
  let overlay :=
    crear_overlay (alto img) (ancho img)
      mascara_pasto_final mascara_tierra_final in
  let img_base := cvtColor_BGR2BGRA color img in
  let img_final := addWeighted color img_base 1%Q overlay (4 # 10)%Q 0%Q in
  {| mascara_pasto_final := mascara_pasto_final;
     mascara_tierra_final := mascara_tierra_final;
     porc_pasto := porc_pasto;
     porc_tierra := porc_tierra;
     porc_otros := porc_otros;
     overlay := overlay;
     img_final := img_final |}.

(** [f"data:image/jpeg;base64,{...}"] of the JPEG at a given quality
    (lines 124-125, 132 and 139-141). *)
Definition overlay_uri (img_final : Imagen4) (calidad : Z) : string :=
  let buffer := imencode_jpg codec img_final calidad in
  let img_with_overlay_base64 := b64encode buffer in
  "data:image/jpeg;base64," ++ img_with_overlay_base64.

(** Lines 123-143. *)
Definition ensamblar (an : Analisis) : M Dict :=
  let uri := overlay_uri (img_final an) 85 in
  timestamp ← time_time;
  let response :=
    respuesta (porc_pasto an) (porc_tierra an) (porc_otros an) uri timestamp in
  let json_str := json_dumps py response in
  if (1000000 <? len json_str)%Z then
    let uri := overlay_uri (img_final an) 65 in
    mret (dict_set response "overlay_image" (JStr uri))
  else mret response.

Definition procesar_imagen (base64_data_str : string) : M Dict :=
  img ← decodificar base64_data_str;
  ensamblar (analizar img).

(** ** The request loop (lines 157-196) *)

(** Lines 182-187 and 190-195: the error block on [stderr]. *)
Definition escribir_error (prefijo : string) (e : Excepcion) : M unit :=
  timestamp ← time_time;
  let error_msg :=
    json_dumps py [ ("error", JStr (prefijo ++ str_e e));
                    ("timestamp", JNum (PyFloat timestamp)) ] in
  stderr_write (repr_int (len error_msg) ++ salto ++ error_msg ++ salto).

(** Lines 169-171: the result with the processing time merged in. *)
Definition procesar_y_medir (line : string) (start_time : Q) : M Dict :=
  resultado ← procesar_imagen line;
  fin ← time_time;
  let elapsed := (fin - start_time)%Q in
  mret (dict_set resultado "tiempo_procesamiento"
          (JNum (py_round (PyFloat elapsed) 3))).

(** Lines 165-187: one request. *)
Definition atender (line : string) : M unit :=
  start_time ← time_time;
  try_except
    (resultado ← procesar_y_medir line start_time;
     try_except
       (let json_str := json_dumps py resultado in
        stdout_write (json_str ++ salto))
       (fun e => raise (Exception_ ("Error serializando JSON: " ++ str_e e))))
    (escribir_error "Error procesando imagen: ").

(** Lines 159-196: one turn of [while True]. *)
Definition iteracion : M unit :=
  try_except
    (line ← (l ← readline; mret (strip l));
     if String.eqb line "" then time_sleep (1 # 10)%Q
     else atender line)
    (fun e =>
       _ ← escribir_error "Error en el bucle principal: " e;
       time_sleep 1%Q).

(** The first [n] turns of [main]. *)
Fixpoint main (n : nat) : M unit :=
  match n with
  | O => mret tt
  | S k => _ ← iteracion; main k
  end.

End Pipeline.

(** ** A reference model of the OpenCV mask operations

    The operations of [Cv2Morph] as OpenCV documents them, for the
    arguments the pipeline passes: flat morphology over the non-zero
    entries of the structuring element, anchored at its centre, with
    pixels outside the image ignored; the 5x5 Gaussian of [sigma = 0]
    (the fixed kernel 1 4 6 4 1 over 16 in each direction, border
    reflected without repeating the edge pixel, result rounded to
    nearest); labelling of the non-zero pixels by connectivity. *)
Module Referencia.

Local Open Scope Z_scope.

(** [m[i, j]] for integer coordinates, [None] outside the image. *)
Definition px (m : Plano) (i j : Z) : option Z :=
  if (0 <=? i) && (0 <=? j) then pixel m (Z.to_nat i) (Z.to_nat j) else None.

(** An array of the shape of [m] whose entry (i, j) is [f i j]. *)
Definition tabular {A} (m : list (list A)) (f : Z -> Z -> Z) : Plano :=
  imap (fun i fila => imap (fun j _ => f (Z.of_nat i) (Z.of_nat j)) fila) m.

(** The pixels of [src] under the non-zero entries of [elemento] when its
    centre is placed on (i, j). *)
Definition bajo_elemento (src elemento : Plano) (i j : Z) : list Z :=
  let ay := Z.of_nat (alto elemento) / 2 in
  let ax := Z.of_nat (ancho elemento) / 2 in
  concat
    (imap (fun a fila =>
             omap id
               (imap (fun b e =>
                        if e =? 0 then None
                        else px src (i + Z.of_nat a - ay) (j + Z.of_nat b - ax))
                     fila))
          elemento).

Definition erode (src elemento : Plano) : Plano :=
  tabular src (fun i j => fold_right Z.min 255 (bajo_elemento src elemento i j)).

Definition dilate1 (src elemento : Plano) : Plano :=
  tabular src (fun i j => fold_right Z.max 0 (bajo_elemento src elemento i j)).

Definition morfologia (src : Plano) (op : MorphOp) (elemento : Plano) : Plano :=
  match op with
  | MORPH_OPEN => dilate1 (erode src elemento) elemento
  | MORPH_CLOSE => erode (dilate1 src elemento) elemento
  end.

Definition dilatar (src elemento : Plano) (iterations : nat) : Plano :=
  Nat.iter iterations (fun m => dilate1 m elemento) src.

(** [BORDER_REFLECT_101] on an axis of length [n], for the coordinates a
    5-tap kernel reaches. *)
Definition reflejar101 (n p : Z) : Z :=
  if n =? 1 then 0
  else
    let paso q := if q <? 0 then - q else if n <=? q then 2 * n - 2 - q else q in
    paso (paso (paso p)).

Definition pesos5 : list Z := [1; 4; 6; 4; 1].

(** The weighted sum of the 5x5 neighbourhood of (i, j), in 256ths. *)
Definition suma5 (src : Plano) (i j : Z) : Z :=
  let a := Z.of_nat (alto src) in
  let n := Z.of_nat (ancho src) in
  foldr Z.add 0
    (imap (fun di wi =>
             foldr Z.add 0
               (imap (fun dj wj =>
                        wi * wj *
                        default 0 (px src (reflejar101 a (i + Z.of_nat di - 2))
                                          (reflejar101 n (j + Z.of_nat dj - 2))))
                     pesos5))
          pesos5).

Definition suavizar5 (src : Plano) : Plano :=
  tabular src (fun i j => (suma5 src i j + 128) / 256).

(** Only the call the pipeline makes is modelled. *)
Definition desenfoque (src : Plano) (ksize : nat * nat) (sigma : Q) : Plano :=
  match ksize with
  | (5%nat, 5%nat) => if Qeq_bool sigma 0 then suavizar5 src else src
  | _ => src
  end.

(** *** Connected components

    Every non-zero pixel starts with its own identifier (its raster
    position plus one) and repeatedly takes the least identifier among
    its non-zero neighbours; after as many rounds as there are pixels the
    identifier of a pixel is that of the first pixel of its component. *)
Definition desplazamientos (connectivity : nat) : list (Z * Z) :=
  match connectivity with
  | 4%nat => [(-1, 0); (0, -1); (0, 1); (1, 0)]
  | _ => [(-1, -1); (-1, 0); (-1, 1); (0, -1); (0, 1); (1, -1); (1, 0); (1, 1)]
  end.

Definition ids_iniciales (m : Plano) : Plano :=
  imap (fun i fila =>
          imap (fun j x =>
                  if x =? 0 then 0
                  else Z.of_nat (i * ancho m + j) + 1) fila) m.

Definition min_positivo (x y : Z) : Z :=
  if y =? 0 then x else Z.min x y.

Definition propagar (connectivity : nat) (ids : Plano) : Plano :=
  imap (fun i fila =>
          imap (fun j x =>
                  if x =? 0 then 0
                  else
                    fold_left
                      (fun acc d =>
                         min_positivo acc
                           (default 0 (px ids (Z.of_nat i + d.1) (Z.of_nat j + d.2))))
                      (desplazamientos connectivity) x) fila) ids.

Definition ids_finales (connectivity : nat) (m : Plano) : Plano :=
  Nat.iter (alto m * ancho m) (propagar connectivity) (ids_iniciales m).

(** The identifiers that head a component, in raster order. *)
Definition raices (ids0 ids : Plano) : list Z :=
  List.filter (fun x => negb (x =? 0))
    (zip_with (fun x0 x => if x0 =? x then x else 0) (concat ids0) (concat ids)).

Fixpoint posicion (x : Z) (l : list Z) : nat :=
  match l with
  | [] => 0%nat
  | y :: resto => if x =? y then 0%nat else S (posicion x resto)
  end.

Definition componentes (m : Plano) (connectivity : nat) : Componentes :=
  let ids0 := ids_iniciales m in
  let ids := ids_finales connectivity m in
  let rs := raices ids0 ids in
  let etiquetas :=
    mapa2 (fun x => if x =? 0 then 0%nat else S (posicion x rs)) ids in
  let n := S (length rs) in
  {| num_labels := n;
     labels := etiquetas;
     stats_area :=
       fmap (M := list)
         (fun k => Z.of_nat (length (List.filter (Nat.eqb k) (concat etiquetas))))
         (seq 0 n) |}.

Definition cv : Cv2Morph :=
  {| morphologyEx := morfologia;
     dilate := dilatar;
     GaussianBlur := desenfoque;
     connectedComponentsWithStats := componentes |}.

End Referencia.

Local Open Scope Z_scope.

(** ** What the libraries promise about shapes

    OpenCV returns arrays of the size of their source; the decoder
    returns a rectangular array. *)

Record FormaCodec (codec : Cv2Codec) : Prop := {
  imdecode_forma : forall bs img,
    imdecode codec bs = ImdecodeOk img -> es_plano (alto img) (ancho img) img
}.

Record FormaColor (color : Cv2Color) : Prop := {
  cvtColor_forma : forall a n img c,
    es_plano a n img -> es_plano a n (cvtColor color img c);
  clahe_forma : forall a n m,
    es_plano a n m -> es_plano a n (clahe_apply color m);
  equalizeHist_forma : forall a n m,
    es_plano a n m -> es_plano a n (equalizeHist color m)
}.

Record FormaMorph (cv : Cv2Morph) : Prop := {
  morphologyEx_forma : forall a n m op k,
    es_plano a n m -> es_plano a n (morphologyEx cv m op k);
  dilate_forma : forall a n m k it,
    es_plano a n m -> es_plano a n (dilate cv m k it);
  GaussianBlur_forma : forall a n m ks sg,
    es_plano a n m -> es_plano a n (GaussianBlur cv m ks sg);
  labels_forma : forall a n m c,
    es_plano a n m -> es_plano a n (labels (connectedComponentsWithStats cv m c))
}.

(** ** Observations on results *)

(** Some pixel is non-zero in both masks. *)
Definition solapadas (a b : Plano) : bool :=
  existsb id (concat (zip2 (fun x y => negb (x =? 0) && negb (y =? 0)) a b)).

(** The three percentages of a result, [None] for a raised exception. *)
Definition fracciones (r : Excepcion + Dict)
  : option (option JValor * option JValor * option JValor) :=
  match r with
  | inl _ => None
  | inr d => Some (dict_get d "pasto", dict_get d "tierra", dict_get d "otros")
  end.

(** A number with at most [k] decimals. *)
Definition con_decimales (k : nat) (x : PyNum) : Prop :=
  exists z : Z, (valor x * inject_Z (10 ^ Z.of_nat k) == inject_Z z)%Q.

(** The payload is not an image: [b64decode] raises, or [imdecode] raises
    or returns [None]. *)
Definition no_decodifica (py : PyLib) (codec : Cv2Codec) (s : string) : Prop :=
  match b64decode py (ultimo_segmento s) with
  | inl _ => True
  | inr img_data =>
      match imdecode codec img_data with
      | ImdecodeOk _ => False
      | _ => True
      end
  end.

(** A character that [json.dumps] writes as it is. *)
Definition imprimible (c : ascii) : bool :=
  let n := N_of_ascii c in
  ((32 <=? n) && (n <=? 126) && negb (n =? 34) && negb (n =? 92))%N.

Fixpoint todo_imprimible (s : string) : bool :=
  match s with
  | EmptyString => true
  | String c resto => imprimible c && todo_imprimible resto
  end.

(** No character of [s] is [c]. *)
Fixpoint sin_caracter (c : ascii) (s : string) : bool :=
  match s with
  | EmptyString => true
  | String c' resto => negb (Ascii.eqb c' c) && sin_caracter c resto
  end.

(** A line the loop treats as a request: not empty once stripped. *)
Definition es_peticion (l : string) : bool := negb (String.eqb (strip l) "").

(** A printable ASCII character, and a string of them. *)
Definition visible (c : ascii) : bool :=
  let n := N_of_ascii c in ((32 <=? n) && (n <=? 126))%N.

Fixpoint todo_visible (s : string) : bool :=
  match s with
  | EmptyString => true
  | String c resto => visible c && todo_visible resto
  end.

(** The world after one reading of the clock. *)
Definition tras_leer_reloj (w : Mundo) : Mundo := (time_time w).2.

(** ** Stand-ins for the codec and colour libraries

    Small executable implementations of the remaining library records, so
    that whole requests can be run: a base64 decoder for canonical
    base64 text, an uncompressed image format (one byte of height, one of
    width, then B, G, R per pixel), an encoder whose output length is
    chosen per quality, identity colour conversions. *)
Module Prueba.

Local Open Scope Z_scope.

Fixpoint indice_de (c : ascii) (s : string) : option N :=
  match s with
  | EmptyString => None
  | String c' resto =>
      if Ascii.eqb c c' then Some 0%N
      else option_map N.succ (indice_de c resto)
  end.

Definition byte_de (n : N) : Byte.byte := default Byte.x00 (Byte.of_N (n mod 256)).

Fixpoint de_sextetos (vs : list N) : list Byte.byte :=
  match vs with
  | a :: b :: c :: d :: resto =>
      byte_de (a * 4 + b / 16) :: byte_de (b mod 16 * 16 + c / 4)
        :: byte_de (c mod 4 * 64 + d) :: de_sextetos resto
  | [a; b; c] => [byte_de (a * 4 + b / 16); byte_de (b mod 16 * 16 + c / 4)]
  | [a; b] => [byte_de (a * 4 + b / 16)]
  | _ => []
  end%N.

Definition b64decode_simple (s : string) : string + list Byte.byte :=
  let cs := list_ascii_of_string s in
  let datos := omap (fun c => indice_de c alfabeto_b64) cs in
  let relleno := length (List.filter (Ascii.eqb "=") cs) in
  if (Nat.eqb ((length datos + relleno) mod 4) 0
      && negb (Nat.eqb (length datos mod 4) 1))%nat
  then inr (de_sextetos datos)
  else inl "Incorrect padding".

(** The integer part, a point and up to three decimals, the trailing
    zeros dropped: [repr] of a float with at most three decimals. *)
Definition repr_float_simple (x : Q) : string :=
  let miles := Qfloor (x * 1000) in
  let d1 := miles mod 1000 / 100 in
  let d2 := miles mod 100 / 10 in
  let d3 := miles mod 10 in
  repr_int (miles / 1000) ++ "." ++ repr_int d1
    ++ (if (d2 =? 0) && (d3 =? 0) then ""
        else repr_int d2 ++ (if d3 =? 0 then "" else repr_int d3)).

Definition py : PyLib := 
  {| b64decode := b64decode_simple; repr_float := repr_float_simple |}.

(** The uncompressed image format. *)
Definition canal_de (b : Byte.byte) : Z := Z.of_N (Byte.to_N b).

Fixpoint leer_fila (n : nat) (bs : list Byte.byte)
  : option (list (Z * Z * Z) * list Byte.byte) :=
  match n with
  | O => Some ([], bs)
  | S k =>
      match bs with
      | b :: g :: r :: resto =>
          match leer_fila k resto with
          | Some (ps, resto') => Some ((canal_de b, canal_de g, canal_de r) :: ps, resto')
          | None => None
          end
      | _ => None
      end
  end.

Fixpoint leer_filas (a n : nat) (bs : list Byte.byte) : option Imagen :=
  match a with
  | O => match bs with [] => Some [] | _ => None end
  | S k =>
      match leer_fila n bs with
      | Some (fila, resto) =>
          match leer_filas k n resto with
          | Some filas => Some (fila :: filas)
          | None => None
          end
      | None => None
      end
  end.

Definition imdecode_simple (bs : list Byte.byte) : ResultadoImdecode :=
  match bs with
  | [] => ImdecodeError "(-215:Assertion failed) !buf.empty() in function 'imdecode_'"
  | a :: n :: datos =>
      let a := N.to_nat (Byte.to_N a) in
      let n := N.to_nat (Byte.to_N n) in
      if (Nat.eqb a 0 || Nat.eqb n 0)%bool then ImdecodeNone
      else
        match leer_filas a n datos with
        | Some img => ImdecodeOk img
        | None => ImdecodeNone
        end
  | _ => ImdecodeNone
  end.

(** An encoder that returns [tamano q] bytes at quality [q]. *)
Definition codec (tamano : Z -> N) : Cv2Codec :=
  {| imdecode := imdecode_simple;
     imencode_jpg := fun _ q => repeat Byte.x00 (N.to_nat (tamano q)) |}.

(** Three encoders: a tenth of a byte, ten thousand bytes and twelve
    thousand bytes per unit of quality. *)
Definition codec_pequeno : Cv2Codec := codec (fun q => Z.to_N q / 10)%N.
Definition codec_grande : Cv2Codec := codec (fun q => Z.to_N q * 10000)%N.
Definition codec_enorme : Cv2Codec := codec (fun q => Z.to_N q * 12000)%N.

(** An encoder whose quality-85 output brings the serialised response
    of the three-band image to the edge of the budget. *)
Definition codec_umbral : Cv2Codec :=
  codec (fun q => if q =? 85 then 749913%N else 7500%N).

Definition saturar (x : Z) : Z := Z.max 0 (Z.min 255 x).

Definition mezclar (alpha beta gamma : Q) (x y : Z) : Z :=
  saturar (redondear_par (inject_Z x * alpha + inject_Z y * beta + gamma)%Q).

Definition color : Cv2Color :=
  {| cvtColor := fun img _ => img;
     clahe_apply := fun m => m;
     equalizeHist := fun m => m;
     cvtColor_BGR2BGRA := mapa2 (fun p => (p.1.1, p.1.2, p.2, 255));
     addWeighted := fun src1 alpha src2 beta gamma =>
       zip2 (fun p q =>
               (mezclar alpha beta gamma p.1.1.1 q.1.1.1,
                mezclar alpha beta gamma p.1.1.2 q.1.1.2,
                mezclar alpha beta gamma p.1.2 q.1.2,
                mezclar alpha beta gamma p.2 q.2)) src1 src2 |}.

(** A world whose clock starts at 1 700 000 000 s and advances a quarter
    of a second per reading. *)
Definition mundo (entrada : list string) : Mundo :=
  {| reloj := fun k => (inject_Z (Z.of_nat k) * (1 # 4) + 1700000000)%Q;
     tics := 0;
     stdin := entrada;
     stdout := [];
     stderr := [] |}.

(** A world whose clock always reads [t]. *)
Definition mundo_fijo (t : Q) : Mundo :=
  {| reloj := fun _ => t; tics := 0; stdin := []; stdout := []; stderr := [] |}.

(** Requests in the uncompressed format. *)
Definition codificar_fila (fila : list (Z * Z * Z)) : list Byte.byte :=
  concat (fmap (M := list)
            (fun p => [byte_de (Z.to_N p.1.1); byte_de (Z.to_N p.1.2);
                       byte_de (Z.to_N p.2)]) fila).

Definition peticion (img : Imagen) : string :=
  "data:image/raw;base64,"
  ++ b64encode (byte_de (N.of_nat (alto img)) :: byte_de (N.of_nat (ancho img))
                  :: concat (fmap (M := list) codificar_fila img)).

(** A lossless encoder: the uncompressed format of the colour channels
    of a four-channel image, whatever the quality. *)
Definition imencode_crudo (img : Imagen4) (calidad : Z) : list Byte.byte :=
  byte_de (N.of_nat (alto img)) :: byte_de (N.of_nat (ancho img))
    :: concat (fmap (M := list)
                 (fun fila =>
                    codificar_fila
                      (fmap (M := list) (fun p => (p.1.1.1, p.1.1.2, p.1.2))
                         fila))
                 img).

Definition codec_crudo : Cv2Codec :=
  {| imdecode := imdecode_simple; imencode_jpg := imencode_crudo |}.

End Prueba.

(** ** Inputs used in the evaluations *)

(** Six rows of fourteen pixels in three vertical bands: three dark
    columns, five grass-coloured columns, six soil-coloured columns.
    [franjas_bgr] is the corrected image, [franjas_hsv] its HSV form with
    the value channel equalised. *)
Definition franjas_bgr : Imagen :=
  replicate 6 (replicate 3 (0, 0, 0) ++ replicate 5 (40, 160, 80)
               ++ replicate 6 (40, 80, 120))%list.

Definition franjas_hsv : Imagen :=
  replicate 6 (replicate 3 (0, 0, 0) ++ replicate 5 (50, 191, 255)
               ++ replicate 6 (15, 170, 139))%list.

(** One pixel of hue 25, the only hue in both the grass range and a soil
    range, with its B,G,R values. *)
Definition ambiguo_hsv : Imagen := [[(25, 128, 120)]].
Definition ambiguo_bgr : Imagen := [[(60, 110, 120)]].

(** The same three bands for the stand-in colour library, whose
    conversions are the identity. *)
Definition franjas : Imagen :=
  replicate 6 (replicate 3 (0, 0, 0) ++ replicate 5 (30, 200, 100)
               ++ replicate 6 (10, 100, 100))%list.

(** * Properties *)

(** ** Arrays: pixels and shapes *)

Lemma pixel_mapa2 {A B} (f : A -> B) (m : list (list A)) i j :
  pixel (mapa2 f m) i j = f <$> pixel m i j.
Proof.
  unfold pixel, mapa2. rewrite list_lookup_fmap.
  destruct (m !! i) as [fila|]; simpl; [|done].
  by rewrite list_lookup_fmap.
Qed.

Lemma pixel_zip2 {A B C} (f : A -> B -> C) m1 m2 i j :
  pixel (zip2 f m1 m2) i j =
  match pixel m1 i j, pixel m2 i j with
  | Some x, Some y => Some (f x y)
  | _, _ => None
  end.
Proof.
  unfold pixel, zip2. rewrite lookup_zip_with.
  destruct (m1 !! i) as [f1|]; simpl; [|done].
  destruct (m2 !! i) as [f2|]; simpl.
  - rewrite lookup_zip_with.
    destruct (f1 !! j); simpl; [|done]. by destruct (f2 !! j).
  - by destruct (f1 !! j).
Qed.

Lemma pixel_replicate {A} (x : A) a n i j :
  (i < a)%nat -> (j < n)%nat ->
  pixel (replicate a (replicate n x)) i j = Some x.
Proof.
  intros Hi Hj. unfold pixel.
  rewrite (lookup_replicate_2 a (replicate n x) i Hi). simpl.
  by apply lookup_replicate_2.
Qed.

Lemma es_plano_mapa2 {A B} (f : A -> B) a n m :
  es_plano a n m -> es_plano a n (mapa2 f m).
Proof.
  intros [Ha Hn]. split.
  - unfold mapa2. by rewrite length_fmap.
  - unfold mapa2. apply Forall_fmap. eapply Forall_impl; [exact Hn|].
    intros fila Hf. simpl. by rewrite length_fmap.
Qed.

Lemma es_plano_zip2 {A B C} (f : A -> B -> C) a n m1 m2 :
  es_plano a n m1 -> es_plano a n m2 -> es_plano a n (zip2 f m1 m2).
Proof.
  intros [Ha1 Hn1] [Ha2 Hn2]. split.
  - unfold zip2. rewrite length_zip_with. lia.
  - unfold zip2. clear Ha1 Ha2. revert m2 Hn2.
    induction Hn1 as [|f1 m1 Hf1 _ IH]; intros m2 Hn2; [constructor|].
    destruct Hn2 as [|f2 m2 Hf2 Hn2]; [constructor|].
    simpl. constructor; [|by apply IH].
    rewrite length_zip_with. lia.
Qed.

Lemma es_plano_replicate {A} (x : A) a n :
  es_plano a n (replicate a (replicate n x)).
Proof.
  split; [apply length_replicate|].
  apply Forall_replicate. apply length_replicate.
Qed.

Lemma es_plano_imap2 {A B} (g : nat -> nat -> A -> B) a n (m : list (list A)) :
  es_plano a n m ->
  es_plano a n (imap (fun i fila => imap (g i) fila) m).
Proof.
  intros [Ha Hn]. split; [by rewrite length_imap|].
  apply Forall_forall. intros fila Hin.
  apply list_elem_of_lookup in Hin as [i Hi].
  rewrite list_lookup_imap in Hi.
  destruct (m !! i) as [f0|] eqn:E; simpl in Hi; [|done].
  injection Hi as <-. rewrite length_imap.
  rewrite Forall_forall in Hn. apply Hn.
  apply list_elem_of_lookup. eauto.
Qed.

Lemma countNonZero_cota a n (m : Plano) :
  es_plano a n m -> 0 <= countNonZero m <= Z.of_nat a * Z.of_nat n.
Proof.
  intros [Ha Hn]. unfold countNonZero. split; [lia|].
  assert (length (concat m) = (a * n)%nat) as Hlen.
  { subst a. induction Hn as [|fila m Hf _ IH]; [done|].
    simpl. rewrite length_app, IH, Hf. lia. }
  pose proof (filter_length (fun x => negb (x =? 0)) (concat m)) as Hf.
  pose proof (List.filter_length_le (fun x => negb (x =? 0)) (concat m)).
  lia.
Qed.

(** ** Bitwise exclusion on eight bits *)

Lemma land_not8_mismo (s g : Z) : Z.land (Z.land s (not8 g)) g = 0.
Proof.
  unfold not8. apply Z.bits_inj'. intros k Hk.
  rewrite !Z.land_spec, Z.lnot_spec, Z.bits_0 by lia.
  destruct (Z.testbit g k); simpl; [|apply andb_false_r].
  by rewrite andb_false_r.
Qed.

Lemma not8_binario (g : Z) : g = 0 \/ g = 255 -> not8 g = 255 - g.
Proof. by intros [-> | ->]. Qed.

(** What line 102 does achieve: the two final masks never share a set
    bit at a pixel. *)
Lemma excluir_bit_a_bit (tierra pasto : Plano) i j t p :
  pixel (excluir tierra pasto) i j = Some t ->
  pixel pasto i j = Some p ->
  Z.land t p = 0.
Proof.
  unfold excluir, bitwise_and, bitwise_not. rewrite pixel_zip2, pixel_mapa2.
  intros Ht Hp. rewrite Hp in Ht. simpl in Ht.
  destruct (pixel tierra i j) as [s|]; [|done].
  injection Ht as <-. apply land_not8_mismo.
Qed.

(** On a grass mask that is still binary, line 102 leaves no pixel set in
    both masks. *)
Lemma excluir_disjunta_si_binaria (tierra pasto : Plano) i j t p :
  pixel (excluir tierra pasto) i j = Some t ->
  pixel pasto i j = Some p ->
  p = 0 \/ p = 255 ->
  p = 0 \/ t = 0.
Proof.
  intros Ht Hp [-> | ->]; [by left|]. right.
  pose proof (excluir_bit_a_bit _ _ _ _ _ _ Ht Hp) as Hb.
  unfold excluir, bitwise_and, bitwise_not in Ht.
  rewrite pixel_zip2, pixel_mapa2, Hp in Ht. simpl in Ht.
  destruct (pixel tierra i j) as [s|]; [|done].
  injection Ht as <-. change (not8 255) with 0. apply Z.land_0_r.
Qed.

Lemma not8_resta (p : Z) : 0 <= p <= 255 -> not8 p = 255 - p.
Proof.
  intros Hp. unfold not8. change 255 with (Z.ones 8) at 1.
  rewrite Z.land_ones by lia. unfold Z.lnot, Z.pred.
  replace (- p + -1) with (255 - p + -1 * 2 ^ 8) by lia.
  rewrite Z.mod_add by lia. apply Z.mod_small. lia.
Qed.

(** Where the blurred soil mask is 255 and the blurred grass mask is
    strictly between 0 and 255, line 102 leaves the soil mask at
    255 - p: the pixel is non-zero in both final masks, whatever
    library produced the blurred values. *)
Lemma excluir_solapa (tierra pasto : Plano) i j p :
  pixel tierra i j = Some 255 ->
  pixel pasto i j = Some p ->
  0 < p < 255 ->
  pixel (excluir tierra pasto) i j = Some (255 - p) /\ 255 - p <> 0 /\ p <> 0.
Proof.
  intros Ht Hp Hr. split; [|lia].
  unfold excluir, bitwise_and, bitwise_not.
  rewrite pixel_zip2, pixel_mapa2, Ht, Hp. simpl. f_equal.
  rewrite not8_resta by lia. change 255 with (Z.ones 8) at 1.
  rewrite Z.land_comm, Z.land_ones by lia. apply Z.mod_small. lia.
Qed.

(** ** Claims *)

(** C1 (the code departs from the claim).  The claim: after the cleanup
    no pixel is non-zero in both final masks.  On the three-band image
    the fused masks are disjoint, but after the cleanup the pixel of row
    0, column 9 is 175 in the grass mask and 64 in the soil mask: line
    102 is a bitwise operation on blurred, no longer binary, masks. *)
Theorem C1_mascaras_finales_solapadas :
  solapadas
    (fusion_pasto (mascara_pasto_color franjas_hsv)
       (mascara_vegetacion_vi franjas_bgr))
    (fusion_tierra (mascara_tierra_color franjas_hsv)
       (fusion_pasto (mascara_pasto_color franjas_hsv)
          (mascara_vegetacion_vi franjas_bgr))) = false
  /\ pixel (clasificar Referencia.cv 84 franjas_hsv franjas_bgr).1 0 9 = Some 175
  /\ pixel (clasificar Referencia.cv 84 franjas_hsv franjas_bgr).2 0 9 = Some 64
  /\ solapadas (clasificar Referencia.cv 84 franjas_hsv franjas_bgr).1
       (clasificar Referencia.cv 84 franjas_hsv franjas_bgr).2 = true.
Proof. vm_compute. auto. Qed.

(** C2 (the code departs from the claim).  The claim: the grass and soil
    percentages add up to at most 100.  On the three-band image twelve of
    the fourteen columns count as grass and five as soil: the percentages
    are 600/7 and 250/7, their sum exceeds 100, the response carries
    85.71 and 35.71, and the third percentage is clamped to 0. *)
Theorem C2_porcentajes_suman_mas_de_100 :
  let pasto := (clasificar Referencia.cv 84 franjas_hsv franjas_bgr).1 in
  let tierra := (clasificar Referencia.cv 84 franjas_hsv franjas_bgr).2 in
  let p := porcentaje_mascara pasto 84 in
  let t := porcentaje_mascara tierra 84 in
  (valor p == 600 # 7)%Q /\ (valor t == 250 # 7)%Q
  /\ (100 < valor p + valor t)%Q
  /\ (valor (py_round p 2) == 8571 # 100)%Q
  /\ (valor (py_round t 2) == 3571 # 100)%Q
  /\ porcentaje_otros p t = PyInt 0.
Proof. vm_compute. repeat split; congruence. Qed.

(** The same bands sent as a request through the stand-in codec and
    colour library: the response carries 85.71, 35.71 and 0. *)
Example peticion_franjas_respuesta :
  fracciones
    (procesar_imagen Prueba.py Prueba.codec_pequeno Prueba.color
       Referencia.cv (Prueba.peticion franjas) (Prueba.mundo [])).1
  = Some (Some (JNum (PyFloat (8571 # 100))),
          Some (JNum (PyFloat (3571 # 100))),
          Some (JNum (PyInt 0))).
Proof. vm_compute. reflexivity. Qed.

(** C3, counterexample.  The pixel of hue 25 lies in the grass range and
    in the brown soil range, so both raw colour masks are set; its
    vegetation index is negative, so the fused grass mask is 0 and the
    fused soil mask 255: it is classified as soil. *)
Lemma C3_ambiguo_es_tierra :
  pixel (mascara_pasto_color ambiguo_hsv) 0 0 = Some 255
  /\ pixel (mascara_tierra_color ambiguo_hsv) 0 0 = Some 255
  /\ pixel (mascara_vegetacion_vi ambiguo_bgr) 0 0 = Some 0
  /\ pixel (fusion_pasto (mascara_pasto_color ambiguo_hsv)
              (mascara_vegetacion_vi ambiguo_bgr)) 0 0 = Some 0
  /\ pixel (fusion_tierra (mascara_tierra_color ambiguo_hsv)
              (fusion_pasto (mascara_pasto_color ambiguo_hsv)
                 (mascara_vegetacion_vi ambiguo_bgr))) 0 0 = Some 255.
Proof. vm_compute. auto. Qed.

(** C3, as amended.  At every pixel the fused grass mask is the bitwise
    AND of the grass colour mask and the vegetation-index mask, and the
    fused soil mask is the bitwise AND of the soil colour mask with the
    complement of the fused grass mask; hence a pixel set in the grass
    colour mask and in the vegetation-index mask is grass and not soil
    at fusion, whatever the soil colour mask says, and a pixel whose
    vegetation-index mask is clear is never grass and keeps its soil
    colour value. *)
Theorem C3_fusion_por_pixel (pasto_color tierra_color vegetacion_vi : Plano)
  (i j : nat) (g v s : Z) :
  pixel pasto_color i j = Some g ->
  pixel vegetacion_vi i j = Some v ->
  pixel tierra_color i j = Some s ->
  0 <= s <= 255 ->
  let pasto_final := fusion_pasto pasto_color vegetacion_vi in
  let tierra_final := fusion_tierra tierra_color pasto_final in
  pixel pasto_final i j = Some (Z.land g v)
  /\ pixel tierra_final i j = Some (Z.land s (not8 (Z.land g v)))
  /\ (g = 255 -> v = 255 ->
      pixel pasto_final i j = Some 255 /\ pixel tierra_final i j = Some 0)
  /\ (v = 0 ->
      pixel pasto_final i j = Some 0 /\ pixel tierra_final i j = Some s).
Proof.
  intros Hg Hv Hs Hrango pasto_final tierra_final.
  assert (pixel pasto_final i j = Some (Z.land g v)) as Hp.
  { unfold pasto_final, fusion_pasto, bitwise_and.
    by rewrite pixel_zip2, Hg, Hv. }
  assert (pixel tierra_final i j = Some (Z.land s (not8 (Z.land g v)))) as Ht.
  { unfold tierra_final, fusion_tierra, bitwise_and, bitwise_not.
    by rewrite pixel_zip2, pixel_mapa2, Hs, Hp. }
  split; [exact Hp|]. split; [exact Ht|]. split.
  - intros -> ->. split; [by rewrite Hp|].
    rewrite Ht. change (not8 (Z.land 255 255)) with 0.
    by rewrite Z.land_0_r.
  - intros ->. split; [by rewrite Hp, Z.land_0_r|].
    rewrite Ht, Z.land_0_r. change (not8 0) with 255.
    f_equal. change 255 with (Z.ones 8). rewrite Z.land_ones by lia.
    apply Z.mod_small. lia.
Qed.

Lemma C3_fusion_por_pixel_witness :
  pixel (fusion_pasto [[255]] [[255]]) 0 0 = Some 255
  /\ pixel (fusion_tierra [[255]] (fusion_pasto [[255]] [[255]])) 0 0 = Some 0.
Proof.
  apply (C3_fusion_por_pixel [[255]] [[255]] [[255]] 0 0 255 255 255);
    [reflexivity | reflexivity | reflexivity | lia | reflexivity | reflexivity].
Defined.

(** ** The vegetation index *)

Lemma inject_Z_cero (z : Z) : (inject_Z z == 0)%Q <-> z = 0.
Proof. unfold Qeq. simpl. lia. Qed.

Lemma denominador_Z (b g r : Z) :
  (inject_Z g + inject_Z r - inject_Z b == inject_Z (g + r - b))%Q.
Proof.
  unfold Z.sub, Qminus.
  by rewrite !inject_Z_plus, inject_Z_opp.
Qed.

Lemma Qlt_bool_iff (x y : Q) : Qlt_bool x y = true <-> (x < y)%Q.
Proof.
  unfold Qlt_bool. rewrite negb_true_iff.
  split.
  - intros H. apply Qnot_le_lt. intros Hle.
    apply Qle_bool_iff in Hle. congruence.
  - intros H. destruct (Qle_bool y x) eqn:E; [|done].
    apply Qle_bool_iff in E. exfalso. by apply (Qlt_not_le x y).
Qed.

Lemma vari_cociente (b g r : Z) :
  (vari (b, g, r) ==
   (inject_Z g - inject_Z r)
   / (if (g + r - b =? 0)%Z then 1 # 10000 else inject_Z (g + r - b)))%Q.
Proof.
  unfold vari.
  destruct (Qeq_bool (inject_Z g + inject_Z r - inject_Z b) 0) eqn:E.
  - apply Qeq_bool_iff in E.
    assert (g + r - b = 0) as H0
      by (apply inject_Z_cero; rewrite <- denominador_Z; exact E).
    rewrite H0. reflexivity.
  - destruct (Z.eqb_spec (g + r - b) 0) as [H0|H0].
    + assert (inject_Z g + inject_Z r - inject_Z b == 0)%Q as H1
        by (rewrite denominador_Z; by apply inject_Z_cero).
      apply Qeq_bool_iff in H1. congruence.
    + by rewrite denominador_Z.
Qed.

Lemma umbral_vari_255 (p : Z * Z * Z) :
  umbral_vari p = 255 <-> (3 # 100 < vari p)%Q.
Proof.
  unfold umbral_vari. rewrite <- Qlt_bool_iff.
  by destruct (Qlt_bool (3 # 100) (vari p)).
Qed.

Lemma umbral_vari_0 (p : Z * Z * Z) :
  umbral_vari p = 0 <-> ~ (3 # 100 < vari p)%Q.
Proof.
  unfold umbral_vari. rewrite <- Qlt_bool_iff.
  by destruct (Qlt_bool (3 # 100) (vari p)).
Qed.

(** The mask value depends only on integer comparisons of the channels:
    with d = g + r - b, the pixel is in the mask when d > 0 and
    100 (g - r) > 3 d, when d < 0 and 100 (g - r) < 3 d, or when d = 0
    and g > r. *)
Lemma umbral_vari_entero (b g r : Z) :
  let d := g + r - b in
  umbral_vari (b, g, r) = 255 <->
  (0 < d /\ 3 * d < 100 * (g - r)) \/ (d < 0 /\ 100 * (g - r) < 3 * d)
  \/ (d = 0 /\ r < g).
Proof.
  intros d.
  rewrite umbral_vari_255, vari_cociente.
  fold d. unfold Z.sub at 1. unfold Qminus.
  rewrite <- inject_Z_opp, <- inject_Z_plus.
  change (g + - r) with (g - r).
  rewrite <- (Z.lt_0_sub r g).
  generalize (g - r). intros m.
  destruct d as [|q|q]; unfold Qlt, Qdiv, Qmult, Qinv; simpl; lia.
Qed.

(** A pixel whose red is at least its green, and whose blue is at most
    its green, is never in the vegetation-index mask; hue 25 (between
    red and yellow) is such a pixel. *)
Lemma umbral_vari_rojizo (b g r : Z) :
  0 <= b <= g -> g <= r -> umbral_vari (b, g, r) = 0.
Proof.
  intros Hb Hg.
  destruct (Z.eq_dec (umbral_vari (b, g, r)) 255) as [E|E].
  - apply umbral_vari_entero in E. lia.
  - unfold umbral_vari in *. by destruct (Qlt_bool _ _).
Qed.

(** C4.  The index of a pixel with channels b, g, r is (g - r) / d with
    d = g + r - b when that is not zero and 1/10000 when it is; the mask
    is 255 exactly where the index exceeds 3/100 and 0 elsewhere; the
    pixel g = 200, r = 100, b = 50 has index 4/10 and is in the mask. *)
Theorem C4_indice_de_vegetacion :
  (forall b g r : Z,
     (vari (b, g, r) ==
      (inject_Z g - inject_Z r)
      / (if (g + r - b =? 0)%Z then 1 # 10000 else inject_Z (g + r - b)))%Q
     /\ (umbral_vari (b, g, r) = 255 <-> (3 # 100 < vari (b, g, r))%Q)
     /\ (umbral_vari (b, g, r) = 0 <-> ~ (3 # 100 < vari (b, g, r))%Q))
  /\ (forall (img_corregida : Imagen) i j,
        pixel (mascara_vegetacion_vi img_corregida) i j
        = umbral_vari <$> pixel img_corregida i j)
  /\ (vari (50, 200, 100)%Z == 4 # 10)%Q
  /\ umbral_vari (50, 200, 100) = 255.
Proof.
  split; [|split; [|split]].
  - intros b g r. split; [apply vari_cociente|].
    split; [apply umbral_vari_255 | apply umbral_vari_0].
  - intros img i j. unfold mascara_vegetacion_vi. apply pixel_mapa2.
  - reflexivity.
  - reflexivity.
Qed.

(** ** The overlay *)

Lemma pixel_pintar (canvas : Imagen4) (mask : Plano) (color : Z * Z * Z * Z)
  i j c m :
  pixel canvas i j = Some c ->
  pixel mask i j = Some m ->
  pixel (pintar canvas mask color) i j = Some (if 0 <? m then color else c).
Proof.
  intros Hc Hm. unfold pintar. by rewrite pixel_zip2, Hc, Hm.
Qed.

(** C9.  The canvas is painted with the grass colour where the grass
    mask is positive and then with the soil colour where the soil mask is
    positive, so a pixel positive in both final masks has the soil
    colour: in the overlay soil overrides grass. *)
Theorem C9_overlay_tierra_sobre_pasto (a n : nat) (pasto tierra : Plano)
  (i j : nat) (p t : Z) :
  (i < a)%nat -> (j < n)%nat ->
  pixel pasto i j = Some p ->
  pixel tierra i j = Some t ->
  pixel (crear_overlay a n pasto tierra) i j
  = Some (if 0 <? t then color_tierra
          else if 0 <? p then color_pasto else (0, 0, 0, 0))
  /\ (0 < p -> 0 < t ->
      pixel (crear_overlay a n pasto tierra) i j = Some color_tierra)
  /\ color_tierra <> color_pasto.
Proof.
  intros Hi Hj Hp Ht.
  assert (pixel (crear_overlay a n pasto tierra) i j
          = Some (if 0 <? t then color_tierra
                  else if 0 <? p then color_pasto else (0, 0, 0, 0))) as H.
  { unfold crear_overlay.
    apply pixel_pintar; [|exact Ht].
    apply pixel_pintar; [|exact Hp].
    by apply pixel_replicate. }
  split; [exact H|]. split; [|done].
  intros _ Hpos. rewrite H.
  by destruct (Z.ltb_spec 0 t); [|lia].
Qed.

Lemma C9_overlay_tierra_sobre_pasto_witness :
  pixel (crear_overlay 6 14
           (clasificar Referencia.cv 84 franjas_hsv franjas_bgr).1
           (clasificar Referencia.cv 84 franjas_hsv franjas_bgr).2) 0 9
  = Some color_tierra.
Proof.
  refine (proj1 (proj2 (C9_overlay_tierra_sobre_pasto 6 14 _ _ 0 9 175 64
                          _ _ _ _)) _ _);
    try lia; vm_compute; reflexivity.
Defined.

(** ** Strings: lengths and escapes *)

Lemma len_append (s1 s2 : string) : len (s1 ++ s2) = len s1 + len s2.
Proof.
  unfold len. induction s1 as [|c s1 IH]; simpl; [lia|].
  simpl in IH. lia.
Qed.

Lemma len_String (c : ascii) (s : string) : len (String c s) = 1 + len s.
Proof. unfold len. simpl. lia. Qed.

Lemma len_no_negativa (s : string) : 0 <= len s.
Proof. unfold len. lia. Qed.

Lemma json_escape_char_imprimible (c : ascii) :
  imprimible c = true -> json_escape_char c = String c "".
Proof.
  destruct c as [[] [] [] [] [] [] [] []]; intros H;
    first [discriminate H | reflexivity].
Qed.

Lemma json_escape_imprimible (s : string) :
  todo_imprimible s = true -> json_escape s = s.
Proof.
  induction s as [|c s IH]; [done|].
  simpl. intros [Hc Hs]%andb_true_iff.
  by rewrite (json_escape_char_imprimible c Hc), (IH Hs).
Qed.

Lemma todo_imprimible_append (s1 s2 : string) :
  todo_imprimible (s1 ++ s2) = todo_imprimible s1 && todo_imprimible s2.
Proof.
  induction s1 as [|c s1 IH]; [done|].
  simpl. by rewrite IH, andb_assoc.
Qed.

Lemma len_json_string_imprimible (s : string) :
  todo_imprimible s = true -> len (json_string s) = len s + 2.
Proof.
  intros H. unfold json_string.
  rewrite (json_escape_imprimible s H), len_String, len_append, len_String.
  change (len "") with 0. lia.
Qed.

Lemma b64_char_imprimible (n : N) : imprimible (b64_char n) = true.
Proof.
  unfold b64_char. generalize (N.to_nat n). intros k.
  do 64 (destruct k as [|k]; [reflexivity|]). reflexivity.
Qed.

Lemma b64encode_imprimible : forall bs, todo_imprimible (b64encode bs) = true.
Proof.
  fix IH 1. intros [|a [|b [|c resto]]]; simpl.
  - reflexivity.
  - by rewrite !b64_char_imprimible.
  - by rewrite !b64_char_imprimible.
  - by rewrite !b64_char_imprimible, IH.
Qed.

Lemma length_b64encode : forall bs,
  String.length (b64encode bs) = (4 * ((length bs + 2) / 3))%nat.
Proof.
  fix IH 1. intros [|a [|b [|c resto]]]; simpl b64encode.
  - reflexivity.
  - reflexivity.
  - reflexivity.
  - cbn [String.length]. rewrite IH. cbn [length].
    replace (S (S (S (length resto))) + 2)%nat
      with (1 * 3 + (length resto + 2))%nat by lia.
    rewrite Nat.div_add_l by lia. lia.
Qed.

(** ** The decoder and the assembler, step by step *)

Section PasoAPaso.
Variable py : PyLib.
Variable codec : Cv2Codec.
Variable color : Cv2Color.
Variable morph : Cv2Morph.

Lemma decodificar_ok (s : string) img_data img w :
  b64decode py (ultimo_segmento s) = inr img_data ->
  imdecode codec img_data = ImdecodeOk img ->
  decodificar py codec s w = (inr img, w).
Proof.
  intros Hb Hi. unfold decodificar, try_except. by rewrite Hb, Hi.
Qed.

Lemma decodificar_falla (s : string) :
  no_decodifica py codec s ->
  exists descripcion, forall w,
    decodificar py codec s w
    = (inl (ValueError ("Error decodificando imagen: " ++ descripcion)), w).
Proof.
  unfold no_decodifica, decodificar, try_except.
  destruct (b64decode py (ultimo_segmento s)) as [d|img_data].
  - intros _. by exists d.
  - destruct (imdecode codec img_data) as [d| |img]; intros H.
    + by exists d.
    + by exists mensaje_imagen_nula.
    + done.
Qed.

(** The decoder reads neither the clock nor the streams. *)
Lemma decodificar_casos (s : string) :
  (exists img, forall w, decodificar py codec s w = (inr img, w))
  \/ (exists e, forall w, decodificar py codec s w = (inl e, w)).
Proof.
  unfold decodificar, try_except.
  destruct (b64decode py (ultimo_segmento s)) as [d|img_data].
  - right. by eexists.
  - destruct (imdecode codec img_data) as [d| |img].
    + right. by eexists.
    + right. by eexists.
    + left. by exists img.
Qed.

Lemma dict_set_overlay pasto tierra otros u u' t :
  dict_set (respuesta pasto tierra otros u t) "overlay_image" (JStr u')
  = respuesta pasto tierra otros u' t.
Proof. reflexivity. Qed.

(** Lines 123-143 in one equation. *)
Lemma ensamblar_eq (an : Analisis) (w : Mundo) :
  let r85 :=
    respuesta (porc_pasto an) (porc_tierra an) (porc_otros an)
      (overlay_uri codec (img_final an) 85) (reloj w (tics w)) in
  let r65 :=
    respuesta (porc_pasto an) (porc_tierra an) (porc_otros an)
      (overlay_uri codec (img_final an) 65) (reloj w (tics w)) in
  ensamblar py codec an w
  = (inr (if 1000000 <? len (json_dumps py r85) then r65 else r85),
     tras_leer_reloj w).
Proof.
  intros r85 r65. unfold ensamblar, mbind, M_bind, tras_leer_reloj, time_time.
  cbn [fst snd]. fold r85.
  destruct (1000000 <? len (json_dumps py r85)); reflexivity.
Qed.

Lemma procesar_imagen_ok (s : string) img (w : Mundo) :
  decodificar py codec s w = (inr img, w) ->
  procesar_imagen py codec color morph s w
  = ensamblar py codec (analizar color morph img) w.
Proof.
  intros H. unfold procesar_imagen, mbind, M_bind. by rewrite H.
Qed.

Lemma procesar_imagen_falla (s : string) e (w : Mundo) :
  decodificar py codec s w = (inl e, w) ->
  procesar_imagen py codec color morph s w = (inl e, w).
Proof.
  intros H. unfold procesar_imagen, mbind, M_bind. by rewrite H.
Qed.

(** The length of the serialised response, apart from the overlay
    string, does not depend on the overlay. *)
Lemma len_json_respuesta pasto tierra otros u t :
  todo_imprimible u = true ->
  len (json_dumps py (respuesta pasto tierra otros u t))
  = len (json_dumps py (respuesta pasto tierra otros "" t)) + len u.
Proof.
  intros Hu. unfold json_dumps, respuesta, json_items, json_item.
  cbn [fst snd].
  change (json_valor py (JStr u)) with (json_string u).
  change (json_valor py (JStr "")) with (json_string "").
  repeat (rewrite ?len_append, ?len_String).
  rewrite (len_json_string_imprimible u Hu).
  rewrite (len_json_string_imprimible "" eq_refl).
  change (len "") with 0. lia.
Qed.

Lemma overlay_uri_imprimible img q :
  todo_imprimible (overlay_uri codec img q) = true.
Proof.
  unfold overlay_uri. rewrite todo_imprimible_append.
  by rewrite b64encode_imprimible.
Qed.

End PasoAPaso.

(** ** The request loop never raises *)

Section Bucle.
Variable py : PyLib.
Variable codec : Cv2Codec.
Variable color : Cv2Color.
Variable morph : Cv2Morph.

Lemma escribir_error_ok (prefijo : string) (e : Excepcion) (w : Mundo) :
  exists bloque,
    escribir_error py prefijo e w
    = (inr tt,
       {| reloj := reloj w; tics := S (tics w); stdin := stdin w;
          stdout := stdout w; stderr := (stderr w ++ [bloque])%list |})
    /\ bloque =
       (let error_msg :=
          json_dumps py [ ("error", JStr (prefijo ++ str_e e));
                          ("timestamp", JNum (PyFloat (reloj w (tics w)))) ] in
        repr_int (len error_msg) ++ salto ++ error_msg ++ salto).
Proof. eexists. split; [|reflexivity]. reflexivity. Qed.

Lemma atender_no_falla (line : string) (w : Mundo) :
  (atender py codec color morph line w).1 = inr tt.
Proof.
  unfold atender, mbind, M_bind, try_except, time_time. cbn [fst snd].
  match goal with
  | |- context [procesar_y_medir ?a ?b ?c ?d ?e ?f ?g] =>
      destruct (procesar_y_medir a b c d e f g) as [[e0|resultado] w1]
  end.
  - by destruct (escribir_error_ok "Error procesando imagen: " e0 w1)
      as (bloque & -> & _).
  - reflexivity.
Qed.

Lemma iteracion_no_falla (w : Mundo) :
  (iteracion py codec color morph w).1 = inr tt.
Proof.
  unfold iteracion, try_except, mbind, M_bind, mret, M_ret.
  destruct (readline w) as [[e|l] w1] eqn:E.
  - unfold readline in E. destruct (stdin w); discriminate E.
  - destruct (String.eqb (strip l) ""); [reflexivity|].
    pose proof (atender_no_falla (strip l) w1) as H.
    destruct (atender py codec color morph (strip l) w1) as [[e|[]] w2];
      [discriminate H | reflexivity].
Qed.

Lemma main_no_falla (n : nat) (w : Mundo) :
  (main py codec color morph n w).1 = inr tt.
Proof.
  revert w. induction n as [|n IH]; intros w; [reflexivity|].
  cbn [main]. unfold mbind, M_bind.
  pose proof (iteracion_no_falla w) as H.
  destruct (iteracion py codec color morph w) as [[e|[]] w1];
    [discriminate H | apply IH].
Qed.

End Bucle.

(** The three percentages of the result do not depend on the world the
    request runs in (the clock, its readings, the streams): two runs on
    the same payload report the same percentages, or both fail. *)
Lemma fracciones_sin_mundo (py : PyLib) (codec : Cv2Codec)
  (color : Cv2Color) (morph : Cv2Morph) (s : string) (w1 w2 : Mundo) :
  fracciones (procesar_imagen py codec color morph s w1).1
  = fracciones (procesar_imagen py codec color morph s w2).1.
Proof.
  destruct (decodificar_casos py codec s) as [[img H]|[e H]].
  - rewrite (procesar_imagen_ok py codec color morph s img w1 (H w1)).
    rewrite (procesar_imagen_ok py codec color morph s img w2 (H w2)).
    rewrite !ensamblar_eq. cbn [fst].
    repeat match goal with
           | |- context [if ?b then _ else _] => destruct b
           end; reflexivity.
  - rewrite (procesar_imagen_falla py codec color morph s e w1 (H w1)).
    rewrite (procesar_imagen_falla py codec color morph s e w2 (H w2)).
    reflexivity.
Qed.

(** C6.  When the payload cannot be base64-decoded, or [imdecode] raises
    or returns [None], [procesar_imagen] raises a [ValueError] whose
    message is "Error decodificando imagen: " followed by the description
    of the failure, and no result; the request loop catches it, writes
    one error block to [stderr] and nothing to [stdout], and goes on. *)
Theorem C6_error_de_decodificacion (py : PyLib) (codec : Cv2Codec)
  (color : Cv2Color) (morph : Cv2Morph) (s : string) (w : Mundo) :
  no_decodifica py codec s ->
  exists descripcion,
    procesar_imagen py codec color morph s w
    = (inl (ValueError ("Error decodificando imagen: " ++ descripcion)), w)
    /\ fracciones (procesar_imagen py codec color morph s w).1 = None
    /\ (exists w' bloque,
          atender py codec color morph s w = (inr tt, w')
          /\ stdout w' = stdout w
          /\ stderr w' = (stderr w ++ [bloque])%list
          /\ bloque =
             (let error_msg :=
                json_dumps py
                  [ ("error",
                     JStr ("Error procesando imagen: "
                           ++ "Error decodificando imagen: " ++ descripcion));
                    ("timestamp", JNum (PyFloat (reloj w (S (tics w))))) ] in
              repr_int (len error_msg) ++ salto ++ error_msg ++ salto))
    /\ (forall n w0, (main py codec color morph n w0).1 = inr tt).
Proof.
  intros Hno. destruct (decodificar_falla py codec s Hno) as [d Hd].
  exists d.
  assert (forall w0, procesar_imagen py codec color morph s w0
                     = (inl (ValueError ("Error decodificando imagen: " ++ d)), w0))
    as Hp by (intros w0; apply procesar_imagen_falla, Hd).
  split; [apply Hp|]. split; [by rewrite Hp|]. split; [|apply main_no_falla].
  unfold atender, mbind, M_bind, try_except. unfold time_time at 1.
  unfold procesar_y_medir, mbind, M_bind. rewrite Hp.
  match goal with
  | |- context [escribir_error ?a ?b ?c ?d] =>
      destruct (escribir_error_ok a b c d) as (bloque & -> & Hb)
  end.
  eexists _, bloque. split; [reflexivity|]. cbn [stdout stderr reloj tics].
  split; [reflexivity|]. split; [reflexivity|]. exact Hb.
Qed.

Lemma C6_error_de_decodificacion_witness :
  no_decodifica Prueba.py Prueba.codec_pequeno "data:image/raw;base64,AAAA"
  /\ fracciones
       (procesar_imagen Prueba.py Prueba.codec_pequeno Prueba.color
          Referencia.cv "data:image/raw;base64,AAAA" (Prueba.mundo [])).1
     = None.
Proof.
  assert (no_decodifica Prueba.py Prueba.codec_pequeno
            "data:image/raw;base64,AAAA") as H by (vm_compute; exact I).
  split; [exact H|].
  destruct (C6_error_de_decodificacion Prueba.py Prueba.codec_pequeno
              Prueba.color Referencia.cv "data:image/raw;base64,AAAA"
              (Prueba.mundo []) H) as (d & _ & Hf & _).
  exact Hf.
Defined.

(** The data URI is 23 characters of header and four characters for
    every three bytes of the JPEG, the last group padded. *)
Lemma len_overlay_uri (codec : Cv2Codec) (img : Imagen4) (q : Z) :
  len (overlay_uri codec img q)
  = 23 + 4 * ((Z.of_nat (length (imencode_jpg codec img q)) + 2) / 3).
Proof.
  unfold overlay_uri. rewrite len_append.
  change (len "data:image/jpeg;base64,") with 23.
  unfold len. rewrite length_b64encode.
  rewrite Nat2Z.inj_mul, Nat2Z.inj_div, Nat2Z.inj_add. reflexivity.
Qed.

(** C7, as amended.  When the response serialised with the quality-85
    overlay is longer than 1 000 000 characters, the assembler returns
    the same response with the overlay replaced by the quality-65
    encoding of the same image, every other field unchanged, and does
    not measure it again: its serialisation differs in length from the
    first one by four characters for every three-byte group by which
    the two JPEGs differ, so it is shorter exactly when the quality-65
    JPEG has fewer such groups than the quality-85 one.  When the first
    serialisation is within the budget it is returned as it is. *)
Theorem C7_reencoding_a_calidad_65 (py : PyLib) (codec : Cv2Codec)
  (an : Analisis) (w : Mundo) :
  let uri85 := overlay_uri codec (img_final an) 85 in
  let uri65 := overlay_uri codec (img_final an) 65 in
  let n85 := Z.of_nat (length (imencode_jpg codec (img_final an) 85)) in
  let n65 := Z.of_nat (length (imencode_jpg codec (img_final an) 65)) in
  let r85 :=
    respuesta (porc_pasto an) (porc_tierra an) (porc_otros an) uri85
      (reloj w (tics w)) in
  let r65 := dict_set r85 "overlay_image" (JStr uri65) in
  (1000000 < len (json_dumps py r85) ->
   ensamblar py codec an w = (inr r65, tras_leer_reloj w)
   /\ dict_get r65 "overlay_image" = Some (JStr uri65)
   /\ (forall k, k <> "overlay_image" -> dict_get r65 k = dict_get r85 k)
   /\ len (json_dumps py r65) - len (json_dumps py r85)
      = 4 * ((n65 + 2) / 3 - (n85 + 2) / 3)
   /\ (len (json_dumps py r65) < len (json_dumps py r85)
       <-> (n65 + 2) / 3 < (n85 + 2) / 3))
  /\ (len (json_dumps py r85) <= 1000000 ->
      ensamblar py codec an w = (inr r85, tras_leer_reloj w)).
Proof.
  intros uri85 uri65 n85 n65 r85 r65.
  assert (len (json_dumps py r65) - len (json_dumps py r85)
          = 4 * ((n65 + 2) / 3 - (n85 + 2) / 3)) as Hdif.
  { unfold r65, r85. rewrite dict_set_overlay.
    rewrite (len_json_respuesta py _ _ _ uri65 _
               (overlay_uri_imprimible codec (img_final an) 65)).
    rewrite (len_json_respuesta py _ _ _ uri85 _
               (overlay_uri_imprimible codec (img_final an) 85)).
    unfold uri65, uri85. rewrite !len_overlay_uri. fold n65 n85. lia. }
  split.
  - intros Hover. split; [|split; [|split; [|split]]].
    + rewrite ensamblar_eq. fold uri85 uri65 r85.
      apply Z.ltb_lt in Hover. by rewrite Hover.
    + reflexivity.
    + intros k Hk. unfold r65, r85, respuesta. cbn [dict_set dict_get].
      change (String.eqb "pasto" "overlay_image") with false.
      change (String.eqb "tierra" "overlay_image") with false.
      change (String.eqb "otros" "overlay_image") with false.
      change (String.eqb "overlay_image" "overlay_image") with true.
      cbn [dict_get].
      destruct (String.eqb_spec "overlay_image" k) as [E|_]; [|reflexivity].
      by destruct Hk.
    + exact Hdif.
    + lia.
  - intros Hdentro. rewrite ensamblar_eq. fold uri85 r85.
    apply Z.ltb_ge in Hdentro. by rewrite Hdentro.
Qed.

(** C10.  The length is compared with the budget once: if the response
    with the quality-65 overlay is still longer than 1 000 000
    characters, [procesar_imagen] returns it all the same, as a normal
    result whose overlay is the quality-65 encoding. *)
Theorem C10_una_sola_comprobacion (py : PyLib) (codec : Cv2Codec)
  (color : Cv2Color) (morph : Cv2Morph) (s : string) (img : Imagen)
  (w : Mundo) :
  let an := analizar color morph img in
  let r85 :=
    respuesta (porc_pasto an) (porc_tierra an) (porc_otros an)
      (overlay_uri codec (img_final an) 85) (reloj w (tics w)) in
  let r65 :=
    respuesta (porc_pasto an) (porc_tierra an) (porc_otros an)
      (overlay_uri codec (img_final an) 65) (reloj w (tics w)) in
  decodificar py codec s w = (inr img, w) ->
  1000000 < len (json_dumps py r85) ->
  1000000 < len (json_dumps py r65) ->
  procesar_imagen py codec color morph s w = (inr r65, tras_leer_reloj w)
  /\ dict_get r65 "overlay_image"
     = Some (JStr (overlay_uri codec (img_final an) 65))
  /\ 1000000 < len (json_dumps py r65).
Proof.
  intros an r85 r65 Hdec H85 H65.
  split; [|split; [reflexivity | exact H65]].
  rewrite (procesar_imagen_ok py codec color morph s img w Hdec).
  rewrite ensamblar_eq. fold an r85 r65.
  apply Z.ltb_lt in H85. by rewrite H85.
Qed.

(** The length of the data URI of the stand-in encoders. *)
Lemma len_overlay_uri_prueba (tamano : Z -> N) (img : Imagen4) (q : Z) :
  len (overlay_uri (Prueba.codec tamano) img q)
  = 23 + 4 * ((Z.of_N (tamano q) + 2) / 3).
Proof.
  unfold overlay_uri. rewrite len_append.
  change (len "data:image/jpeg;base64,") with 23.
  unfold len. rewrite length_b64encode.
  cbn [imencode_jpg Prueba.codec]. rewrite repeat_length.
  rewrite Nat2Z.inj_mul, Nat2Z.inj_div, Nat2Z.inj_add, N_nat_Z. reflexivity.
Qed.

Lemma C7_reencoding_a_calidad_65_witness :
  let an := analizar Prueba.color Referencia.cv [[(30, 200, 100)]] in
  let w := Prueba.mundo [] in
  let uri85 := overlay_uri Prueba.codec_grande (img_final an) 85 in
  let uri65 := overlay_uri Prueba.codec_grande (img_final an) 65 in
  let r85 :=
    respuesta (porc_pasto an) (porc_tierra an) (porc_otros an) uri85
      (reloj w (tics w)) in
  let r65 := dict_set r85 "overlay_image" (JStr uri65) in
  1000000 < len (json_dumps Prueba.py r85)
  /\ ensamblar Prueba.py Prueba.codec_grande an w = (inr r65, tras_leer_reloj w)
  /\ len (json_dumps Prueba.py r65) - len (json_dumps Prueba.py r85)
     = 4 * ((650000 + 2) / 3 - (850000 + 2) / 3).
Proof.
  intros an w uri85 uri65 r85 r65.
  assert (len uri85 = 1133359) as H85
    by (unfold uri85, Prueba.codec_grande; rewrite len_overlay_uri_prueba;
        reflexivity).
  assert (1000000 < len (json_dumps Prueba.py r85)) as Hover.
  { unfold r85.
    rewrite (len_json_respuesta Prueba.py _ _ _ uri85 _
               (overlay_uri_imprimible Prueba.codec_grande (img_final an) 85)).
    rewrite H85.
    pose proof (len_no_negativa
                  (json_dumps Prueba.py
                     (respuesta (porc_pasto an) (porc_tierra an)
                        (porc_otros an) "" (reloj w (tics w))))).
    lia. }
  split; [exact Hover|].
  destruct (C7_reencoding_a_calidad_65 Prueba.py Prueba.codec_grande an w)
    as [Hsobre _].
  destruct (Hsobre Hover) as (Hr & _ & _ & Hdif & _).
  split; [exact Hr|].
  unfold Prueba.codec_grande, Prueba.codec in Hdif.
  cbn [imencode_jpg] in Hdif. rewrite !repeat_length, !N_nat_Z in Hdif.
  exact Hdif.
Defined.

(** C7, counterexample.  With an encoder whose output is as long at
    quality 65 as at quality 85 (750 000 bytes), the first serialisation
    is over the budget, the assembler substitutes the quality-65 overlay,
    and the final serialisation is exactly as long as the first one: not
    smaller. *)
Lemma C7_calidad_65_no_mas_corta :
  let codec := Prueba.codec (fun _ => 750000%N) in
  let an := analizar Prueba.color Referencia.cv [[(30, 200, 100)]] in
  let w := Prueba.mundo [] in
  let r q :=
    respuesta (porc_pasto an) (porc_tierra an) (porc_otros an)
      (overlay_uri codec (img_final an) q) (reloj w (tics w)) in
  1000000 < len (json_dumps Prueba.py (r 85))
  /\ ensamblar Prueba.py codec an w = (inr (r 65), tras_leer_reloj w)
  /\ ~ len (json_dumps Prueba.py (r 65)) < len (json_dumps Prueba.py (r 85)).
Proof.
  intros codec an w r.
  assert (forall q, len (overlay_uri codec (img_final an) q) = 1000023) as Hu
    by (intros q; unfold codec; rewrite len_overlay_uri_prueba; reflexivity).
  assert (forall q,
            len (json_dumps Prueba.py (r q))
            = len (json_dumps Prueba.py
                     (respuesta (porc_pasto an) (porc_tierra an)
                        (porc_otros an) "" (reloj w (tics w))))
              + 1000023) as Hl.
  { intros q. unfold r.
    rewrite (len_json_respuesta Prueba.py (porc_pasto an) (porc_tierra an)
               (porc_otros an) (overlay_uri codec (img_final an) q)
               (reloj w (tics w))
               (overlay_uri_imprimible codec (img_final an) q)).
    by rewrite Hu. }
  pose proof (len_no_negativa
                (json_dumps Prueba.py
                   (respuesta (porc_pasto an) (porc_tierra an)
                      (porc_otros an) "" (reloj w (tics w))))) as Hpos.
  assert (1000000 < len (json_dumps Prueba.py (r 85))) as Hover
    by (rewrite Hl; lia).
  split; [exact Hover|]. split.
  - rewrite ensamblar_eq. fold (r 85) (r 65).
    apply Z.ltb_lt in Hover. by rewrite Hover.
  - rewrite !Hl. lia.
Qed.

Lemma C10_una_sola_comprobacion_witness :
  let s := Prueba.peticion [[(30, 200, 100)]] in
  let w := Prueba.mundo [] in
  let an := analizar Prueba.color Referencia.cv [[(30, 200, 100)]] in
  let r65 :=
    respuesta (porc_pasto an) (porc_tierra an) (porc_otros an)
      (overlay_uri Prueba.codec_enorme (img_final an) 65) (reloj w (tics w)) in
  procesar_imagen Prueba.py Prueba.codec_enorme Prueba.color Referencia.cv s w
  = (inr r65, tras_leer_reloj w)
  /\ 1000000 < len (json_dumps Prueba.py r65).
Proof.
  intros s w an r65.
  assert (forall q, 65 <= q ->
            1000000 <
            len (json_dumps Prueba.py
                   (respuesta (porc_pasto an) (porc_tierra an) (porc_otros an)
                      (overlay_uri Prueba.codec_enorme (img_final an) q)
                      (reloj w (tics w))))) as Hlargo.
  { intros q Hq.
    rewrite (len_json_respuesta Prueba.py _ _ _ _ _
               (overlay_uri_imprimible Prueba.codec_enorme (img_final an) q)).
    unfold Prueba.codec_enorme. rewrite len_overlay_uri_prueba. cbv beta.
    rewrite N2Z.inj_mul, Z2N.id by lia. change (Z.of_N 12000) with 12000.
    generalize (len_no_negativa
                  (json_dumps Prueba.py
                     (respuesta (porc_pasto an) (porc_tierra an)
                        (porc_otros an) "" (reloj w (tics w))))).
    generalize (len (json_dumps Prueba.py
                       (respuesta (porc_pasto an) (porc_tierra an)
                          (porc_otros an) "" (reloj w (tics w))))).
    clear -Hq. intros K HK.
    assert (260000 <= (q * 12000 + 2) / 3)
      by (apply Z.div_le_lower_bound; lia).
    lia. }
  destruct (C10_una_sola_comprobacion Prueba.py Prueba.codec_enorme
              Prueba.color Referencia.cv s [[(30, 200, 100)]] w)
    as (Hr & _ & Hl).
  - apply (decodificar_ok _ _ _
             [Byte.x01; Byte.x01; Byte.x1e; Byte.xc8; Byte.x64]);
      vm_compute; reflexivity.
  - apply Hlargo. lia.
  - apply Hlargo. lia.
  - split; [exact Hr | exact Hl].
Defined.

(** The overlay, unlike the percentages, can depend on the clock: the
    length compared with the budget includes the digits of the
    timestamp.  With the same analysis and the same encoder, a response
    stamped 1700000000.5 is 1 000 000 characters long and keeps the
    quality-85 overlay; stamped 1700000000.125 it is two characters
    longer and gets the quality-65 overlay. *)
Remark overlay_depende_del_reloj :
  let an := analizar Prueba.color Referencia.cv franjas in
  let r q t :=
    respuesta (porc_pasto an) (porc_tierra an) (porc_otros an)
      (overlay_uri Prueba.codec_umbral (img_final an) q) t in
  (ensamblar Prueba.py Prueba.codec_umbral an
     (Prueba.mundo_fijo (17000000005 # 10))).1
  = inr (r 85 (17000000005 # 10)%Q)
  /\ (ensamblar Prueba.py Prueba.codec_umbral an
        (Prueba.mundo_fijo (1700000000125 # 1000))).1
     = inr (r 65 (1700000000125 # 1000)%Q)
  /\ overlay_uri Prueba.codec_umbral (img_final an) 85
     <> overlay_uri Prueba.codec_umbral (img_final an) 65.
Proof.
  intros an r.
  assert (len (json_dumps Prueba.py
                 (respuesta (porc_pasto an) (porc_tierra an) (porc_otros an)
                    "" (17000000005 # 10))) = 93) as Hbase1
    by (vm_compute; reflexivity).
  assert (len (json_dumps Prueba.py
                 (respuesta (porc_pasto an) (porc_tierra an) (porc_otros an)
                    "" (1700000000125 # 1000))) = 95) as Hbase2
    by (vm_compute; reflexivity).
  assert (len (overlay_uri Prueba.codec_umbral (img_final an) 85) = 999907)
    as H85
    by (unfold Prueba.codec_umbral; rewrite len_overlay_uri_prueba;
        reflexivity).
  assert (len (overlay_uri Prueba.codec_umbral (img_final an) 65) = 10023)
    as H65
    by (unfold Prueba.codec_umbral; rewrite len_overlay_uri_prueba;
        reflexivity).
  split; [|split].
  - rewrite ensamblar_eq. cbn [fst].
    unfold Prueba.mundo_fijo. cbn [reloj tics].
    rewrite (len_json_respuesta Prueba.py (porc_pasto an) (porc_tierra an)
               (porc_otros an)
               (overlay_uri Prueba.codec_umbral (img_final an) 85)
               (17000000005 # 10)%Q
               (overlay_uri_imprimible Prueba.codec_umbral (img_final an) 85)).
    rewrite Hbase1, H85. reflexivity.
  - rewrite ensamblar_eq. cbn [fst].
    unfold Prueba.mundo_fijo. cbn [reloj tics].
    rewrite (len_json_respuesta Prueba.py (porc_pasto an) (porc_tierra an)
               (porc_otros an)
               (overlay_uri Prueba.codec_umbral (img_final an) 85)
               (1700000000125 # 1000)%Q
               (overlay_uri_imprimible Prueba.codec_umbral (img_final an) 85)).
    rewrite Hbase2, H85. reflexivity.
  - intros E. apply (f_equal len) in E. rewrite H85, H65 in E. discriminate E.
Qed.

(** The serialised response is as long as the printed timestamp plus a
    part that does not depend on the timestamp. *)
Lemma len_json_respuesta_sello (py : PyLib) pasto tierra otros u t1 t2 :
  len (json_dumps py (respuesta pasto tierra otros u t1))
  - len (repr_float py t1)
  = len (json_dumps py (respuesta pasto tierra otros u t2))
    - len (repr_float py t2).
Proof.
  unfold json_dumps, respuesta, json_items, json_item. cbn [fst snd].
  change (json_valor py (JNum (PyFloat t1))) with (repr_float py t1).
  change (json_valor py (JNum (PyFloat t2))) with (repr_float py t2).
  repeat (rewrite ?len_append, ?len_String). lia.
Qed.

Lemma dict_get_respuesta_overlay pasto tierra otros u t :
  dict_get (respuesta pasto tierra otros u t) "overlay_image" = Some (JStr u).
Proof. reflexivity. Qed.

Lemma dict_set_duracion pasto tierra otros u t (dur : PyNum) :
  dict_set (respuesta pasto tierra otros u t) "tiempo_procesamiento" (JNum dur)
  = (respuesta pasto tierra otros u t
     ++ [("tiempo_procesamiento", JNum dur)])%list.
Proof. reflexivity. Qed.

(** The request of the three-band image decodes to that image. *)
Lemma decodificar_peticion_franjas (tamano : Z -> N) (w : Mundo) :
  decodificar Prueba.py (Prueba.codec tamano) (Prueba.peticion franjas) w
  = (inr franjas, w).
Proof.
  apply (decodificar_ok Prueba.py (Prueba.codec tamano)
           (Prueba.peticion franjas)
           (Prueba.byte_de (N.of_nat (alto franjas))
            :: Prueba.byte_de (N.of_nat (ancho franjas))
            :: concat (fmap (M := list) Prueba.codificar_fila franjas))).
  - vm_compute. reflexivity.
  - vm_compute. reflexivity.
Qed.

Lemma fracciones_respuesta pasto tierra otros u t :
  fracciones (inr (respuesta pasto tierra otros u t))
  = Some (Some (JNum (py_round pasto 2)), Some (JNum (py_round tierra 2)),
          Some (JNum (py_round otros 2))).
Proof. reflexivity. Qed.

(** C5, counterexample.  The same request run under two clocks: stamped
    1700000000.5 the response is 1 000 000 characters long and carries
    the quality-85 overlay, stamped 1700000000.125 it is two characters
    longer and carries the quality-65 overlay.  So [overlay_image], and
    not only the timestamp and the duration, differs between two runs on
    identical input. *)
Lemma C5_overlay_cambia_con_el_reloj :
  let ejecutar t :=
    (procesar_imagen Prueba.py Prueba.codec_umbral Prueba.color Referencia.cv
       (Prueba.peticion franjas) (Prueba.mundo_fijo t)).1 in
  exists d1 d2,
    ejecutar (17000000005 # 10)%Q = inr d1
    /\ ejecutar (1700000000125 # 1000)%Q = inr d2
    /\ fracciones (inr d1) = fracciones (inr d2)
    /\ dict_get d1 "overlay_image" <> dict_get d2 "overlay_image".
Proof.
  intros ejecutar.
  pose proof overlay_depende_del_reloj as H. cbv zeta in H.
  destruct H as (H1 & H2 & Hne).
  set (an := analizar Prueba.color Referencia.cv franjas) in *.
  exists (respuesta (porc_pasto an) (porc_tierra an) (porc_otros an)
            (overlay_uri Prueba.codec_umbral (img_final an) 85)
            (17000000005 # 10)%Q),
         (respuesta (porc_pasto an) (porc_tierra an) (porc_otros an)
            (overlay_uri Prueba.codec_umbral (img_final an) 65)
            (1700000000125 # 1000)%Q).
  split; [|split; [|split]].
  - unfold ejecutar.
    rewrite (procesar_imagen_ok Prueba.py Prueba.codec_umbral Prueba.color
               Referencia.cv (Prueba.peticion franjas) franjas
               (Prueba.mundo_fijo (17000000005 # 10))
               (decodificar_peticion_franjas _ _)).
    exact H1.
  - unfold ejecutar.
    rewrite (procesar_imagen_ok Prueba.py Prueba.codec_umbral Prueba.color
               Referencia.cv (Prueba.peticion franjas) franjas
               (Prueba.mundo_fijo (1700000000125 # 1000))
               (decodificar_peticion_franjas _ _)).
    exact H2.
  - by rewrite !fracciones_respuesta.
  - rewrite !dict_get_respuesta_overlay. intros E.
    apply (f_equal (fun o => match o with
                             | Some (JStr x) => x
                             | _ => EmptyString
                             end)) in E.
    exact (Hne E).
Qed.

(** C5, as amended.  Two runs on the same decodable payload, under any
    two worlds, yield the same three percentages, and their results
    differ at most in [timestamp], [tiempo_procesamiento] and
    [overlay_image]: the overlay of either run is the quality-85 or the
    quality-65 encoding of the same composite, and the two runs carry
    the same overlay whenever their timestamps print with the same
    number of characters. *)
Theorem C5_dos_ejecuciones (py : PyLib) (codec : Cv2Codec)
  (color : Cv2Color) (morph : Cv2Morph) (s : string)
  (img_data : list Byte.byte) (img : Imagen) (inicio1 inicio2 : Q)
  (w1 w2 : Mundo) :
  b64decode py (ultimo_segmento s) = inr img_data ->
  imdecode codec img_data = ImdecodeOk img ->
  let an := analizar color morph img in
  let uri85 := overlay_uri codec (img_final an) 85 in
  let uri65 := overlay_uri codec (img_final an) 65 in
  let t1 := reloj w1 (tics w1) in
  let t2 := reloj w2 (tics w2) in
  exists (ov1 ov2 : string) (dur1 dur2 : PyNum),
    (procesar_y_medir py codec color morph s inicio1 w1).1
    = inr (respuesta (porc_pasto an) (porc_tierra an) (porc_otros an) ov1 t1
           ++ [("tiempo_procesamiento", JNum dur1)])%list
    /\ (procesar_y_medir py codec color morph s inicio2 w2).1
       = inr (respuesta (porc_pasto an) (porc_tierra an) (porc_otros an)
                ov2 t2
              ++ [("tiempo_procesamiento", JNum dur2)])%list
    /\ (ov1 = uri85 \/ ov1 = uri65)
    /\ (ov2 = uri85 \/ ov2 = uri65)
    /\ (len (repr_float py t1) = len (repr_float py t2) -> ov1 = ov2).
Proof.
  intros Hb Hi an uri85 uri65 t1 t2.
  assert (forall inicio w,
            (procesar_y_medir py codec color morph s inicio w).1
            = inr (respuesta (porc_pasto an) (porc_tierra an) (porc_otros an)
                     (if 1000000 <?
                         len (json_dumps py
                                (respuesta (porc_pasto an) (porc_tierra an)
                                   (porc_otros an) uri85 (reloj w (tics w))))
                      then uri65 else uri85)
                     (reloj w (tics w))
                   ++ [("tiempo_procesamiento",
                        JNum (py_round
                                (PyFloat (reloj w (S (tics w)) - inicio)%Q)
                                3))])%list) as Hrun.
  { intros inicio w. unfold procesar_y_medir, mbind, M_bind.
    rewrite (procesar_imagen_ok py codec color morph s img w
               (decodificar_ok py codec s img_data img w Hb Hi)).
    rewrite ensamblar_eq. fold an uri85 uri65.
    unfold tras_leer_reloj, time_time. cbn [fst snd reloj tics mret M_ret].
    destruct (1000000 <? _); by rewrite dict_set_duracion. }
  eexists _, _, _, _.
  split; [apply Hrun|]. split; [apply Hrun|].
  split; [destruct (1000000 <? _); auto|].
  split; [destruct (1000000 <? _); auto|].
  intros Hlen. fold t1 t2.
  pose proof (len_json_respuesta_sello py (porc_pasto an) (porc_tierra an)
                (porc_otros an) uri85 t1 t2) as Hs.
  replace (len (json_dumps py
                  (respuesta (porc_pasto an) (porc_tierra an) (porc_otros an)
                     uri85 t1)))
    with (len (json_dumps py
                 (respuesta (porc_pasto an) (porc_tierra an) (porc_otros an)
                    uri85 t2))) by lia.
  reflexivity.
Qed.

Lemma C5_dos_ejecuciones_witness :
  let w1 := Prueba.mundo [] in
  let w2 := tras_leer_reloj (tras_leer_reloj (Prueba.mundo [])) in
  let an := analizar Prueba.color Referencia.cv franjas in
  exists (ov : string) (dur1 dur2 : PyNum),
    (procesar_y_medir Prueba.py Prueba.codec_pequeno Prueba.color
       Referencia.cv (Prueba.peticion franjas) 1700000000%Q w1).1
    = inr (respuesta (porc_pasto an) (porc_tierra an) (porc_otros an) ov
             (reloj w1 (tics w1))
           ++ [("tiempo_procesamiento", JNum dur1)])%list
    /\ (procesar_y_medir Prueba.py Prueba.codec_pequeno Prueba.color
          Referencia.cv (Prueba.peticion franjas) 1700000000%Q w2).1
       = inr (respuesta (porc_pasto an) (porc_tierra an) (porc_otros an) ov
                (reloj w2 (tics w2))
              ++ [("tiempo_procesamiento", JNum dur2)])%list.
Proof.
  intros w1 w2 an.
  pose (datos := Prueba.byte_de (N.of_nat (alto franjas))
                 :: Prueba.byte_de (N.of_nat (ancho franjas))
                 :: concat (fmap (M := list) Prueba.codificar_fila franjas)).
  assert (b64decode Prueba.py (ultimo_segmento (Prueba.peticion franjas))
          = inr datos) as Hb by (vm_compute; reflexivity).
  assert (imdecode Prueba.codec_pequeno datos = ImdecodeOk franjas) as Hi
    by (vm_compute; reflexivity).
  destruct (C5_dos_ejecuciones Prueba.py Prueba.codec_pequeno Prueba.color
              Referencia.cv (Prueba.peticion franjas) datos franjas
              1700000000%Q 1700000000%Q w1 w2 Hb Hi)
    as (ov1 & ov2 & dur1 & dur2 & H1 & H2 & _ & _ & Hov).
  assert (ov1 = ov2) as E by (apply Hov; vm_compute; reflexivity).
  exists ov2, dur1, dur2. rewrite <- E at 1. split; [exact H1 | exact H2].
Defined.

(** ** Rounding and the percentages *)

Lemma redondear_par_cotas (x : Q) (lo hi : Z) :
  (inject_Z lo <= x)%Q -> (x <= inject_Z hi)%Q ->
  lo <= redondear_par x <= hi.
Proof.
  intros Hlo Hhi.
  pose proof (Qfloor_le x) as Hf1. pose proof (Qlt_floor x) as Hf2.
  rewrite inject_Z_plus in Hf2.
  assert (lo <= Qfloor x) as Hlof.
  { apply Z.lt_succ_r. unfold Z.succ. rewrite Zlt_Qlt, inject_Z_plus. lra. }
  assert (Qfloor x <= hi) as Hfhi by (rewrite Zle_Qle; lra).
  unfold redondear_par.
  destruct (Qlt_bool (x - inject_Z (Qfloor x)) (1 # 2)) eqn:E1; [lia|].
  assert (Qfloor x < hi) as Hlt.
  { rewrite Zlt_Qlt.
    assert (~ (x - inject_Z (Qfloor x) < 1 # 2)%Q) as Hn
      by (rewrite <- Qlt_bool_iff; congruence).
    lra. }
  destruct (Qlt_bool (1 # 2) (x - inject_Z (Qfloor x))); [lia|].
  destruct (Z.even (Qfloor x)); lia.
Qed.

Lemma escala_positiva (k : nat) : (0 < inject_Z (10 ^ Z.of_nat k))%Q.
Proof.
  change 0%Q with (inject_Z 0). rewrite <- Zlt_Qlt.
  apply Z.pow_pos_nonneg; lia.
Qed.

Lemma py_round_decimales (x : PyNum) (k : nat) : con_decimales k (py_round x k).
Proof.
  destruct x as [z|q]; unfold con_decimales; simpl.
  - exists (z * 10 ^ Z.of_nat k). by rewrite inject_Z_mult.
  - eexists. rewrite Qmult_comm. apply Qmult_div_r.
    pose proof (escala_positiva k). lra.
Qed.

Lemma py_round_rango (x : PyNum) (k : nat) (lo hi : Z) :
  (inject_Z lo <= valor x <= inject_Z hi)%Q ->
  (inject_Z lo <= valor (py_round x k) <= inject_Z hi)%Q.
Proof.
  destruct x as [z|q]; simpl; [done|]. intros [Hlo Hhi].
  pose proof (escala_positiva k) as He.
  set (e := 10 ^ Z.of_nat k) in *.
  destruct (redondear_par_cotas (q * inject_Z e) (lo * e) (hi * e)) as [H1 H2].
  - rewrite inject_Z_mult. by apply Qmult_le_compat_r; [|lra].
  - rewrite inject_Z_mult. by apply Qmult_le_compat_r; [|lra].
  - split.
    + apply Qle_shift_div_l; [exact He|].
      rewrite <- inject_Z_mult, <- Zle_Qle. exact H1.
    + apply Qle_shift_div_r; [exact He|].
      rewrite <- inject_Z_mult, <- Zle_Qle. exact H2.
Qed.

Lemma porcentaje_mascara_rango (a n : nat) (m : Plano) :
  es_plano a n m ->
  (inject_Z 0 <= valor (porcentaje_mascara m (Z.of_nat a * Z.of_nat n))
   <= inject_Z 100)%Q.
Proof.
  intros Hm. pose proof (countNonZero_cota a n m Hm) as [Hc0 Hc1].
  unfold porcentaje_mascara.
  destruct (Z.eqb_spec (Z.of_nat a * Z.of_nat n) 0) as [E|E]; simpl.
  - split; unfold Qle; simpl; lia.
  - set (t := Z.of_nat a * Z.of_nat n) in *.
    assert (0 < inject_Z t)%Q as Ht
      by (change 0%Q with (inject_Z 0); rewrite <- Zlt_Qlt; lia).
    assert (0 <= inject_Z (countNonZero m) / inject_Z t)%Q as H0.
    { apply Qle_shift_div_l; [exact Ht|]. rewrite Qmult_0_l.
      change 0%Q with (inject_Z 0). by rewrite <- Zle_Qle. }
    assert (inject_Z (countNonZero m) / inject_Z t <= 1)%Q as H1.
    { apply Qle_shift_div_r; [exact Ht|]. rewrite Qmult_1_l.
      by rewrite <- Zle_Qle. }
    change (inject_Z 0) with 0%Q. change (inject_Z 100) with 100%Q.
    split; lra.
Qed.

Lemma valor_py_sub (a b : PyNum) : (valor (py_sub a b) == valor a - valor b)%Q.
Proof.
  destruct a as [x|x], b as [y|y]; simpl; try reflexivity.
  unfold Z.sub, Qminus. by rewrite inject_Z_plus, inject_Z_opp.
Qed.

(** Line 107: the third percentage is the difference from 100, or 0 when
    that is not positive. *)
Lemma porcentaje_otros_valor (p t : PyNum) :
  (valor (porcentaje_otros p t) ==
   if Qlt_bool 0 (100 - valor p - valor t) then 100 - valor p - valor t else 0)%Q
  /\ (0 <= valor (porcentaje_otros p t))%Q.
Proof.
  unfold porcentaje_otros, py_max0.
  assert (valor (py_sub (py_sub (PyInt 100) p) t) == 100 - valor p - valor t)%Q
    as Hv by (rewrite !valor_py_sub; reflexivity).
  destruct (Qlt_bool 0 (valor (py_sub (py_sub (PyInt 100) p) t))) eqn:E.
  - assert (Qlt_bool 0 (100 - valor p - valor t) = true) as ->.
    { apply Qlt_bool_iff. rewrite <- Hv. by apply Qlt_bool_iff. }
    split; [exact Hv|]. apply Qlt_bool_iff in E. by apply Qlt_le_weak.
  - assert (Qlt_bool 0 (100 - valor p - valor t) = false) as ->.
    { destruct (Qlt_bool 0 (100 - valor p - valor t)) eqn:E2; [|done].
      apply Qlt_bool_iff in E2. rewrite <- Hv in E2.
      apply Qlt_bool_iff in E2. congruence. }
    simpl. split; [reflexivity | apply Qle_refl].
Qed.

Lemma porcentaje_otros_rango (p t : PyNum) :
  (0 <= valor p)%Q -> (0 <= valor t)%Q ->
  (inject_Z 0 <= valor (porcentaje_otros p t) <= inject_Z 100)%Q.
Proof.
  intros Hp Ht. destruct (porcentaje_otros_valor p t) as [Hv H0].
  change (inject_Z 0) with 0%Q. change (inject_Z 100) with 100%Q.
  split; [exact H0|]. rewrite Hv.
  destruct (Qlt_bool 0 (100 - valor p - valor t)); lra.
Qed.

(** ** Shapes along the pipeline *)

Section Formas.
Variable color : Cv2Color.
Variable morph : Cv2Morph.
Hypothesis Hcolor : FormaColor color.
Hypothesis Hmorph : FormaMorph morph.

Lemma eliminar_forma a n (m : Plano) (min_area : Q) :
  es_plano a n m ->
  es_plano a n (eliminar_pequenos_objetos morph m min_area).
Proof.
  intros Hm. unfold eliminar_pequenos_objetos.
  pose proof (labels_forma morph Hmorph a n m 8%nat Hm) as Hl.
  set (cc := connectedComponentsWithStats morph m 8) in *. clearbody cc.
  generalize (seq 1 (num_labels cc - 1)). intros l.
  revert m Hm. induction l as [|i l IH]; intros m Hm; [exact Hm|].
  simpl. apply IH. unfold paso_eliminar.
  destruct (Qlt_bool (inject_Z (area_de cc i)) min_area); [|exact Hm].
  by apply es_plano_zip2.
Qed.

Lemma limpiar_pasto_forma a n total (m : Plano) :
  es_plano a n m -> es_plano a n (limpiar_pasto morph total m).
Proof.
  intros Hm. unfold limpiar_pasto.
  apply (GaussianBlur_forma morph Hmorph), eliminar_forma.
  apply (dilate_forma morph Hmorph).
  by do 2 apply (morphologyEx_forma morph Hmorph).
Qed.

Lemma limpiar_tierra_forma a n total (m : Plano) :
  es_plano a n m -> es_plano a n (limpiar_tierra morph total m).
Proof.
  intros Hm. unfold limpiar_tierra.
  apply (GaussianBlur_forma morph Hmorph), eliminar_forma.
  by do 2 apply (morphologyEx_forma morph Hmorph).
Qed.

Lemma clasificar_forma a n total (hsv img_corregida : Imagen) :
  es_plano a n hsv -> es_plano a n img_corregida ->
  es_plano a n (clasificar morph total hsv img_corregida).1
  /\ es_plano a n (clasificar morph total hsv img_corregida).2.
Proof.
  intros Hh Hc. unfold clasificar, mascaras_finales. cbn [fst snd].
  assert (es_plano a n (fusion_pasto (mascara_pasto_color hsv)
                          (mascara_vegetacion_vi img_corregida))) as Hp.
  { unfold fusion_pasto, bitwise_and, mascara_pasto_color, inRange,
      mascara_vegetacion_vi.
    by apply es_plano_zip2; apply es_plano_mapa2. }
  assert (es_plano a n (mascara_tierra_color hsv)) as Htc.
  { unfold mascara_tierra_color, bitwise_or, inRange.
    by repeat apply es_plano_zip2; apply es_plano_mapa2. }
  split.
  - by apply limpiar_pasto_forma.
  - unfold excluir, bitwise_and, bitwise_not. apply es_plano_zip2.
    + apply limpiar_tierra_forma. unfold fusion_tierra, bitwise_and, bitwise_not.
      apply es_plano_zip2; [exact Htc|]. by apply es_plano_mapa2.
    + apply es_plano_mapa2. by apply limpiar_pasto_forma.
Qed.

Lemma merge_forma a n (c1 c2 c3 : Plano) :
  es_plano a n c1 -> es_plano a n c2 -> es_plano a n c3 ->
  es_plano a n (merge c1 c2 c3).
Proof. intros. unfold merge. by repeat apply es_plano_zip2. Qed.

Lemma corregir_iluminacion_forma a n (img : Imagen) :
  es_plano a n img -> es_plano a n (corregir_iluminacion color img).
Proof.
  intros Hi. unfold corregir_iluminacion.
  apply (cvtColor_forma color Hcolor).
  pose proof (cvtColor_forma color Hcolor a n img COLOR_BGR2LAB Hi) as Hlab.
  apply merge_forma; unfold canal1, canal2, canal3.
  - apply (clahe_forma color Hcolor). by apply es_plano_mapa2.
  - by apply es_plano_mapa2.
  - by apply es_plano_mapa2.
Qed.

Lemma a_hsv_forma a n (img_corregida : Imagen) :
  es_plano a n img_corregida -> es_plano a n (a_hsv color img_corregida).
Proof.
  intros Hi. unfold a_hsv.
  pose proof (cvtColor_forma color Hcolor a n img_corregida COLOR_BGR2HSV Hi)
    as Hhsv.
  apply merge_forma; unfold canal1, canal2, canal3.
  - by apply es_plano_mapa2.
  - by apply es_plano_mapa2.
  - apply (equalizeHist_forma color Hcolor). by apply es_plano_mapa2.
Qed.

Lemma analizar_porcentajes (img : Imagen) :
  let total_pixels := Z.of_nat (alto img) * Z.of_nat (ancho img) in
  let img_corregida := corregir_iluminacion color img in
  let mascaras := clasificar morph total_pixels (a_hsv color img_corregida)
                    img_corregida in
  let an := analizar color morph img in
  porc_pasto an = porcentaje_mascara mascaras.1 total_pixels
  /\ porc_tierra an = porcentaje_mascara mascaras.2 total_pixels
  /\ porc_otros an = porcentaje_otros (porc_pasto an) (porc_tierra an).
Proof.
  intros total_pixels img_corregida mascaras an.
  unfold an, analizar. fold total_pixels img_corregida mascaras.
  by destruct mascaras as [mp mt].
Qed.

(** The three percentages lie between 0 and 100. *)
Lemma analizar_rangos (img : Imagen) :
  es_plano (alto img) (ancho img) img ->
  let an := analizar color morph img in
  (inject_Z 0 <= valor (porc_pasto an) <= inject_Z 100)%Q
  /\ (inject_Z 0 <= valor (porc_tierra an) <= inject_Z 100)%Q
  /\ (inject_Z 0 <= valor (porc_otros an) <= inject_Z 100)%Q.
Proof.
  intros Hi an.
  destruct (analizar_porcentajes img) as (Hp & Ht & Ho). fold an in Hp, Ht, Ho.
  pose proof (corregir_iluminacion_forma _ _ img Hi) as Hc.
  pose proof (a_hsv_forma _ _ _ Hc) as Hh.
  destruct (clasificar_forma (alto img) (ancho img)
              (Z.of_nat (alto img) * Z.of_nat (ancho img)) _ _ Hh Hc)
    as [Hmp Hmt].
  assert (inject_Z 0 <= valor (porc_pasto an) <= inject_Z 100)%Q as H1
    by (rewrite Hp; by apply porcentaje_mascara_rango).
  assert (inject_Z 0 <= valor (porc_tierra an) <= inject_Z 100)%Q as H2
    by (rewrite Ht; by apply porcentaje_mascara_rango).
  split; [exact H1|]. split; [exact H2|].
  rewrite Ho. apply porcentaje_otros_rango; [apply H1 | apply H2].
Qed.

End Formas.

(** ** The reference model and the stand-ins keep shapes *)

Lemma tabular_forma {A} a n (m : list (list A)) (f : Z -> Z -> Z) :
  es_plano a n m -> es_plano a n (Referencia.tabular m f).
Proof.
  intros Hm. unfold Referencia.tabular.
  exact (es_plano_imap2 (fun i j _ => f (Z.of_nat i) (Z.of_nat j)) a n m Hm).
Qed.

Lemma referencia_forma : FormaMorph Referencia.cv.
Proof.
  split; simpl.
  - intros a n m op k Hm. destruct op; unfold Referencia.morfologia,
      Referencia.erode, Referencia.dilate1; by do 2 apply tabular_forma.
  - intros a n m k it Hm. unfold Referencia.dilatar.
    induction it as [|it IH]; [exact Hm|].
    simpl. unfold Referencia.dilate1 at 1. by apply tabular_forma.
  - intros a n m ks sg Hm. unfold Referencia.desenfoque.
    repeat case_match; try exact Hm.
    unfold Referencia.suavizar5. by apply tabular_forma.
  - intros a n m c Hm. unfold Referencia.componentes. cbn [labels].
    apply es_plano_mapa2. unfold Referencia.ids_finales.
    generalize (alto m * ancho m)%nat. intros k.
    induction k as [|k IH]; simpl.
    + unfold Referencia.ids_iniciales. by apply es_plano_imap2.
    + unfold Referencia.propagar at 1. by apply es_plano_imap2.
Qed.

Lemma prueba_color_forma : FormaColor Prueba.color.
Proof. split; simpl; auto. Qed.

Lemma leer_fila_length n : forall bs ps resto,
  Prueba.leer_fila n bs = Some (ps, resto) -> length ps = n.
Proof.
  induction n as [|n IH]; intros bs ps resto; simpl.
  - by intros [= <- _].
  - destruct bs as [|b [|g [|r bs]]]; try done.
    destruct (Prueba.leer_fila n bs) as [[ps' resto']|] eqn:E; [|done].
    intros [= <- _]. simpl. f_equal. by eapply IH.
Qed.

Lemma leer_filas_forma a n : forall bs img,
  Prueba.leer_filas a n bs = Some img -> es_plano a n img.
Proof.
  induction a as [|a IH]; intros bs img; simpl.
  - destruct bs; [|done]. intros [= <-]. by split.
  - destruct (Prueba.leer_fila n bs) as [[fila resto]|] eqn:E; [|done].
    destruct (Prueba.leer_filas a n resto) as [filas|] eqn:E2; [|done].
    intros [= <-]. destruct (IH _ _ E2) as [Ha Hn].
    split; [simpl; by rewrite Ha|].
    constructor; [by eapply leer_fila_length | exact Hn].
Qed.

Lemma prueba_codec_forma (tamano : Z -> N) : FormaCodec (Prueba.codec tamano).
Proof.
  split. simpl. intros bs img. unfold Prueba.imdecode_simple.
  destruct bs as [|a [|n datos]]; try done.
  destruct (Nat.eqb_spec (N.to_nat (Byte.to_N a)) 0) as [|Ha]; [done|].
  destruct (Nat.eqb_spec (N.to_nat (Byte.to_N n)) 0) as [|Hn]; [done|].
  simpl.
  destruct (Prueba.leer_filas _ _ datos) as [img'|] eqn:E; [|done].
  intros [= <-]. destruct (leer_filas_forma _ _ _ _ E) as [H1 H2].
  unfold alto. rewrite H1. split; [done|].
  destruct img' as [|fila filas]; [simpl in H1; lia|].
  simpl. by rewrite (Forall_inv H2).
Qed.

Lemma decodificar_inr (py : PyLib) (codec : Cv2Codec) (s : string)
  (img : Imagen) (w w' : Mundo) :
  decodificar py codec s w = (inr img, w') ->
  exists img_data, imdecode codec img_data = ImdecodeOk img.
Proof.
  unfold decodificar, try_except.
  destruct (b64decode py (ultimo_segmento s)) as [d|img_data]; [done|].
  destruct (imdecode codec img_data) as [d| |img0] eqn:E; try done.
  intros [= <- _]. by exists img_data.
Qed.

(** C8.  A successful request yields exactly six fields, in this order:
    [pasto], [tierra] and [otros] (the grass, soil and other fractions),
    each between 0 and 100 with at most two decimals; [overlay_image],
    the string "data:image/jpeg;base64," followed by the base64 text of
    the JPEG of the composite at quality 85 or 65; [timestamp], the
    reading of the clock when the response was built, a float;
    [tiempo_procesamiento] (the processing duration), the float
    difference of two clock readings rounded to three decimals. *)
Theorem C8_campos_del_resultado (py : PyLib) (codec : Cv2Codec)
  (color : Cv2Color) (morph : Cv2Morph) (line : string) (start_time : Q)
  (w : Mundo) (d : Dict) :
  FormaCodec codec -> FormaColor color -> FormaMorph morph ->
  (procesar_y_medir py codec color morph line start_time w).1 = inr d ->
  exists (pasto tierra otros : PyNum) (compuesta : Imagen4) (calidad : Z)
         (duracion : Q),
    d = [ ("pasto", JNum pasto);
          ("tierra", JNum tierra);
          ("otros", JNum otros);
          ("overlay_image",
           JStr ("data:image/jpeg;base64,"
                 ++ b64encode (imencode_jpg codec compuesta calidad)));
          ("timestamp", JNum (PyFloat (reloj w (tics w))));
          ("tiempo_procesamiento", JNum (PyFloat duracion)) ]
    /\ (calidad = 85 \/ calidad = 65)
    /\ (inject_Z 0 <= valor pasto <= inject_Z 100)%Q /\ con_decimales 2 pasto
    /\ (inject_Z 0 <= valor tierra <= inject_Z 100)%Q /\ con_decimales 2 tierra
    /\ (inject_Z 0 <= valor otros <= inject_Z 100)%Q /\ con_decimales 2 otros
    /\ PyFloat duracion
       = py_round (PyFloat (reloj w (S (tics w)) - start_time)%Q) 3
    /\ con_decimales 3 (PyFloat duracion).
Proof.
  intros Hcodec Hcolor Hmorph.
  unfold procesar_y_medir, mbind, M_bind.
  destruct (decodificar_casos py codec line) as [[img H]|[e H]].
  - rewrite (procesar_imagen_ok py codec color morph line img w (H w)).
    rewrite ensamblar_eq.
    destruct (decodificar_inr py codec line img w w (H w)) as [bs Hbs].
    pose proof (imdecode_forma codec Hcodec bs img Hbs) as Himg.
    destruct (analizar_rangos color morph Hcolor Hmorph img Himg)
      as (Hp & Ht & Ho).
    set (an := analizar color morph img) in *.
    unfold tras_leer_reloj, time_time, mret, M_ret.
    cbn [fst snd reloj tics].
    set (dur := py_round (PyFloat (reloj w (S (tics w)) - start_time)%Q) 3).
    assert (exists duracion, dur = PyFloat duracion) as [duracion Hdur]
      by (unfold dur; simpl; eauto).
    assert (con_decimales 3 dur) as Hd3 by apply py_round_decimales.
    rewrite Hdur in *.
    assert (forall q, (q = 85 \/ q = 65) ->
              dict_set (respuesta (porc_pasto an) (porc_tierra an) (porc_otros an)
                          (overlay_uri codec (img_final an) q) (reloj w (tics w)))
                "tiempo_procesamiento" (JNum (PyFloat duracion)) = d ->
              exists pasto tierra otros compuesta calidad duracion0,
                d = [ ("pasto", JNum pasto); ("tierra", JNum tierra);
                      ("otros", JNum otros);
                      ("overlay_image",
                       JStr ("data:image/jpeg;base64,"
                             ++ b64encode (imencode_jpg codec compuesta calidad)));
                      ("timestamp", JNum (PyFloat (reloj w (tics w))));
                      ("tiempo_procesamiento", JNum (PyFloat duracion0)) ]
                /\ (calidad = 85 \/ calidad = 65)
                /\ (inject_Z 0 <= valor pasto <= inject_Z 100)%Q
                /\ con_decimales 2 pasto
                /\ (inject_Z 0 <= valor tierra <= inject_Z 100)%Q
                /\ con_decimales 2 tierra
                /\ (inject_Z 0 <= valor otros <= inject_Z 100)%Q
                /\ con_decimales 2 otros
                /\ PyFloat duracion0 = PyFloat duracion
                /\ con_decimales 3 (PyFloat duracion0)) as Hcaso.
    { intros q Hq <-.
      exists (py_round (porc_pasto an) 2), (py_round (porc_tierra an) 2),
        (py_round (porc_otros an) 2), (img_final an), q, duracion.
      split; [reflexivity|]. split; [exact Hq|].
      split; [by apply py_round_rango|]. split; [apply py_round_decimales|].
      split; [by apply py_round_rango|]. split; [apply py_round_decimales|].
      split; [by apply py_round_rango|]. split; [apply py_round_decimales|].
      split; [reflexivity | exact Hd3]. }
    destruct (1000000 <? len _); intros Hd; injection Hd as Hd;
      (eapply Hcaso; [|exact Hd]); auto.
  - rewrite (procesar_imagen_falla py codec color morph line e w (H w)).
    discriminate.
Qed.

Lemma C8_campos_del_resultado_witness :
  let r :=
    (procesar_y_medir Prueba.py Prueba.codec_pequeno Prueba.color
       Referencia.cv (Prueba.peticion franjas) 1700000000%Q
       (tras_leer_reloj (Prueba.mundo []))).1 in
  exists d,
    r = inr d
    /\ fmap (M := list) fst d
       = ["pasto"; "tierra"; "otros"; "overlay_image"; "timestamp";
          "tiempo_procesamiento"]
    /\ dict_get d "pasto" = Some (JNum (PyFloat (8571 # 100)))
    /\ dict_get d "tiempo_procesamiento" = Some (JNum (PyFloat (500 # 1000))).
Proof.
  intros r.
  assert (exists d, r = inr d
                    /\ dict_get d "pasto" = Some (JNum (PyFloat (8571 # 100)))
                    /\ dict_get d "tiempo_procesamiento"
                       = Some (JNum (PyFloat (500 # 1000))))
    as (d & Hr & Hp & Ht).
  { unfold r. vm_compute. eexists. repeat split; reflexivity. }
  exists d. split; [exact Hr|]. split; [|split; [exact Hp | exact Ht]].
  destruct (C8_campos_del_resultado Prueba.py Prueba.codec_pequeno
              Prueba.color Referencia.cv (Prueba.peticion franjas)
              1700000000%Q (tras_leer_reloj (Prueba.mundo [])) d
              (prueba_codec_forma _) prueba_color_forma referencia_forma Hr)
    as (p & t & o & c & q & du & -> & _).
  reflexivity.
Defined.

(** * Further properties of the worker *)

(** ** Small-object removal (lines 145-150) *)

Lemma pixel_borrar_etiqueta (mask : Plano) (etiquetas : list (list nat))
  (k i j : nat) (m : Z) (e : nat) :
  pixel mask i j = Some m ->
  pixel etiquetas i j = Some e ->
  pixel (borrar_etiqueta mask etiquetas k) i j
  = Some (if Nat.eqb e k then 0 else m).
Proof.
  intros Hm He. unfold borrar_etiqueta. by rewrite pixel_zip2, Hm, He.
Qed.

(** A pixel after the loop has run over the labels [l]: cleared when its
    label is in [l] and the area of that label is below [min_area]. *)
Lemma fold_eliminar_pixel (cc : Componentes) (min_area : Q) (i j e : nat) :
  pixel (labels cc) i j = Some e ->
  forall (l : list nat) (mask : Plano) (m : Z),
    pixel mask i j = Some m ->
    pixel (fold_left (paso_eliminar cc min_area) l mask) i j
    = Some (if existsb (Nat.eqb e) l
               && Qlt_bool (inject_Z (area_de cc e)) min_area
            then 0 else m).
Proof.
  intros He l. induction l as [|k l IH]; intros mask m Hm; [exact Hm|].
  cbn [fold_left existsb]. unfold paso_eliminar at 2.
  destruct (Qlt_bool (inject_Z (area_de cc k)) min_area) eqn:Ek.
  - rewrite (IH _ _ (pixel_borrar_etiqueta mask (labels cc) k i j m e Hm He)).
    destruct (Nat.eqb_spec e k) as [->|Hne].
    + rewrite Ek. cbn [orb andb].
      by destruct (existsb (Nat.eqb k) l && true).
    + reflexivity.
  - rewrite (IH _ _ Hm).
    destruct (Nat.eqb_spec e k) as [->|Hne]; [|reflexivity].
    rewrite Ek. cbn [orb]. by rewrite !andb_false_r.
Qed.

Lemma existsb_seq (e a n : nat) :
  existsb (Nat.eqb e) (seq a n) = ((a <=? e) && (e <? a + n))%nat.
Proof.
  revert a. induction n as [|n IH]; intros a; cbn [seq existsb].
  - destruct (Nat.leb_spec a e), (Nat.ltb_spec e (a + 0)); simpl; lia.
  - rewrite IH.
    destruct (Nat.eqb_spec e a), (Nat.leb_spec a e), (Nat.leb_spec (S a) e),
      (Nat.ltb_spec e (S a + n)), (Nat.ltb_spec e (a + S n)); simpl; lia.
Qed.

(** X1.  [eliminar_pequenos_objetos] changes a pixel in one way only: it
    sets it to 0 when the label of the pixel is one of 1 .. num_labels-1
    and the area of that label is below [min_area]; every other pixel,
    the background label 0 included, keeps its value. *)
Theorem X1_eliminar_pequenos_objetos_pixel (cv : Cv2Morph) (mask : Plano)
  (min_area : Q) (i j : nat) (m : Z) (e : nat) :
  let cc := connectedComponentsWithStats cv mask 8 in
  pixel mask i j = Some m ->
  pixel (labels cc) i j = Some e ->
  pixel (eliminar_pequenos_objetos cv mask min_area) i j
  = Some (if (1 <=? e)%nat && (e <? num_labels cc)%nat
             && Qlt_bool (inject_Z (area_de cc e)) min_area
          then 0 else m).
Proof.
  intros cc Hm He. unfold eliminar_pequenos_objetos. fold cc.
  rewrite (fold_eliminar_pixel cc min_area i j e He _ mask m Hm).
  rewrite existsb_seq.
  destruct (Nat.leb_spec 1 e), (Nat.ltb_spec e (num_labels cc)),
    (Nat.ltb_spec e (1 + (num_labels cc - 1))); simpl; try reflexivity; lia.
Qed.

Lemma X1_eliminar_pequenos_objetos_pixel_witness :
  pixel (eliminar_pequenos_objetos Referencia.cv
           [[255; 0; 0; 0]; [0; 0; 255; 255]; [0; 0; 255; 255]] (3 # 2)) 0 0
  = Some 0
  /\ pixel (eliminar_pequenos_objetos Referencia.cv
              [[255; 0; 0; 0]; [0; 0; 255; 255]; [0; 0; 255; 255]] (3 # 2)) 1 2
     = Some 255.
Proof.
  split.
  - exact (X1_eliminar_pequenos_objetos_pixel Referencia.cv
             [[255; 0; 0; 0]; [0; 0; 255; 255]; [0; 0; 255; 255]] (3 # 2)
             0 0 255 1 eq_refl eq_refl).
  - exact (X1_eliminar_pequenos_objetos_pixel Referencia.cv
             [[255; 0; 0; 0]; [0; 0; 255; 255]; [0; 0; 255; 255]] (3 # 2)
             1 2 255 2 eq_refl eq_refl).
Defined.

Lemma Qlt_bool_milesimas (area total k : Z) :
  0 < k ->
  Qlt_bool (inject_Z area) (inject_Z total * (k # 1000)) = (1000 * area <? k * total).
Proof.
  intros Hk. destruct (Z.ltb_spec (1000 * area) (k * total)) as [H|H].
  - apply Qlt_bool_iff. unfold Qlt. simpl. lia.
  - destruct (Qlt_bool _ _) eqn:E; [|done].
    apply Qlt_bool_iff in E. unfold Qlt in E. simpl in E. lia.
Qed.

Lemma fold_eliminar_sin_cambio (cc : Componentes) (min_area : Q)
  (l : list nat) (mask : Plano) :
  (forall e, e ∈ l -> Qlt_bool (inject_Z (area_de cc e)) min_area = false) ->
  fold_left (paso_eliminar cc min_area) l mask = mask.
Proof.
  induction l as [|k l IH]; intros H; [reflexivity|].
  cbn [fold_left]. unfold paso_eliminar at 2.
  rewrite (H k) by apply list_elem_of_here.
  apply IH. intros e He. apply H. by apply list_elem_of_further.
Qed.

(** X2.  With the thresholds of lines 92 and 98 (0.1 % and 0.5 % of the
    pixel count), a mask none of whose labelled components is smaller
    than the threshold - 1000 area >= total for grass, 200 area >= total
    for soil - comes back from [eliminar_pequenos_objetos] unchanged. *)
Theorem X2_eliminar_sin_objetos_pequenos (cv : Cv2Morph) (mask : Plano)
  (total_pixels : Z) :
  let cc := connectedComponentsWithStats cv mask 8 in
  ((forall e, (1 <= e < num_labels cc)%nat ->
      total_pixels <= 1000 * area_de cc e) ->
   eliminar_pequenos_objetos cv mask (inject_Z total_pixels * (1 # 1000))%Q
   = mask)
  /\ ((forall e, (1 <= e < num_labels cc)%nat ->
         total_pixels <= 200 * area_de cc e) ->
      eliminar_pequenos_objetos cv mask (inject_Z total_pixels * (5 # 1000))%Q
      = mask).
Proof.
  intros cc. split; intros H; unfold eliminar_pequenos_objetos; fold cc;
    apply fold_eliminar_sin_cambio; intros e He;
    apply list_elem_of_In, in_seq in He;
    rewrite Qlt_bool_milesimas by lia; apply Z.ltb_ge;
    specialize (H e ltac:(lia)); lia.
Qed.

Lemma X2_eliminar_sin_objetos_pequenos_witness :
  eliminar_pequenos_objetos Referencia.cv
    [[255; 0; 0; 0]; [0; 0; 255; 255]; [0; 0; 255; 255]]
    (inject_Z 12 * (1 # 1000))%Q
  = [[255; 0; 0; 0]; [0; 0; 255; 255]; [0; 0; 255; 255]].
Proof.
  apply (proj1 (X2_eliminar_sin_objetos_pequenos Referencia.cv
                  [[255; 0; 0; 0]; [0; 0; 255; 255]; [0; 0; 255; 255]] 12)).
  intros e He.
  assert (e = 1 \/ e = 2)%nat as [-> | ->] by (vm_compute in He; lia);
    vm_compute; discriminate.
Defined.

(** ** The colour ranges and the fusion (lines 38-61, 80-81) *)

Lemma en_rango_255 (lower upper p : Z * Z * Z) :
  en_rango lower upper p = 255 <->
  lower.1.1 <= p.1.1 <= upper.1.1 /\ lower.1.2 <= p.1.2 <= upper.1.2
  /\ lower.2 <= p.2 <= upper.2.
Proof.
  destruct lower as [[l1 l2] l3], upper as [[u1 u2] u3], p as [[p1 p2] p3].
  unfold en_rango. cbn [fst snd].
  destruct (Z.leb_spec l1 p1), (Z.leb_spec p1 u1), (Z.leb_spec l2 p2),
    (Z.leb_spec p2 u2), (Z.leb_spec l3 p3), (Z.leb_spec p3 u3);
    cbn [andb]; split; intros; try lia; try discriminate.
Qed.

Lemma en_rango_binario (lower upper p : Z * Z * Z) :
  en_rango lower upper p = 0 \/ en_rango lower upper p = 255.
Proof.
  destruct lower as [[l1 l2] l3], upper as [[u1 u2] u3], p as [[p1 p2] p3].
  unfold en_rango. destruct (_ && _); auto.
Qed.

Lemma pixel_mascara_pasto_color (hsv : Imagen) i j :
  pixel (mascara_pasto_color hsv) i j
  = en_rango lower_green upper_green <$> pixel hsv i j.
Proof. unfold mascara_pasto_color, inRange. apply pixel_mapa2. Qed.

Lemma pixel_mascara_tierra_color (hsv : Imagen) i j :
  pixel (mascara_tierra_color hsv) i j
  = (fun p => Z.lor (Z.lor (en_rango lower_brown upper_brown p)
                       (en_rango lower_red1 upper_red1 p))
                 (en_rango lower_red2 upper_red2 p)) <$> pixel hsv i j.
Proof.
  unfold mascara_tierra_color, bitwise_or, inRange.
  rewrite !pixel_zip2, !pixel_mapa2. by destruct (pixel hsv i j).
Qed.

(** X3.  Both raw colour masks are binary (0 or 255), and they are both
    set at a pixel exactly when its hue is 25, its saturation between 40
    and 200 and its value between 20 and 150: the grass range and the
    three soil ranges meet only on the last hue of the brown range. *)
Theorem X3_rangos_de_color (hsv : Imagen) (i j : nat) (h s v : Z) :
  pixel hsv i j = Some (h, s, v) ->
  exists g t,
    pixel (mascara_pasto_color hsv) i j = Some g
    /\ pixel (mascara_tierra_color hsv) i j = Some t
    /\ (g = 0 \/ g = 255) /\ (t = 0 \/ t = 255)
    /\ (g = 255 /\ t = 255 <-> h = 25 /\ 40 <= s <= 200 /\ 20 <= v <= 150).
Proof.
  intros Hp.
  rewrite pixel_mascara_pasto_color, pixel_mascara_tierra_color, Hp.
  cbn [fmap option_fmap option_map].
  eexists _, _. split; [reflexivity|]. split; [reflexivity|].
  pose proof (en_rango_255 lower_green upper_green (h, s, v)) as Hg.
  pose proof (en_rango_255 lower_brown upper_brown (h, s, v)) as Hb.
  pose proof (en_rango_255 lower_red1 upper_red1 (h, s, v)) as H1.
  pose proof (en_rango_255 lower_red2 upper_red2 (h, s, v)) as H2.
  cbn [fst snd lower_green upper_green lower_brown upper_brown lower_red1
         upper_red1 lower_red2 upper_red2] in Hg, Hb, H1, H2.
  destruct (en_rango_binario lower_green upper_green (h, s, v)) as [Eg|Eg],
    (en_rango_binario lower_brown upper_brown (h, s, v)) as [Eb|Eb],
    (en_rango_binario lower_red1 upper_red1 (h, s, v)) as [E1|E1],
    (en_rango_binario lower_red2 upper_red2 (h, s, v)) as [E2|E2];
    rewrite Eg, Eb, E1, E2 in *;
    match goal with
    | |- context [Z.lor (Z.lor ?a ?b) ?c] =>
        let r := eval vm_compute in (Z.lor (Z.lor a b) c) in
        change (Z.lor (Z.lor a b) c) with r
    end;
    (split; [auto|]); (split; [auto|]);
    intuition (try discriminate; try lia).
Qed.

Lemma X3_rangos_de_color_witness :
  exists g t,
    pixel (mascara_pasto_color ambiguo_hsv) 0 0 = Some g
    /\ pixel (mascara_tierra_color ambiguo_hsv) 0 0 = Some t
    /\ (g = 0 \/ g = 255) /\ (t = 0 \/ t = 255)
    /\ (g = 255 /\ t = 255 <-> 25 = 25 /\ 40 <= 128 <= 200 /\ 20 <= 120 <= 150).
Proof.
  exact (X3_rangos_de_color ambiguo_hsv 0 0 25 128 120 eq_refl).
Defined.

Lemma umbral_vari_binario (p : Z * Z * Z) :
  umbral_vari p = 0 \/ umbral_vari p = 255.
Proof. unfold umbral_vari. destruct (Qlt_bool _ _); auto. Qed.

(** X4.  After the fusion of lines 80-81, and before any cleanup, both
    masks are binary and no pixel is set in both: at every pixel of an
    HSV image and a corrected image the fused grass value and the fused
    soil value are 0 or 255, and one of them is 0. *)
Theorem X4_fusion_binaria_y_disjunta (hsv img_corregida : Imagen)
  (i j : nat) (q c : Z * Z * Z) :
  pixel hsv i j = Some q ->
  pixel img_corregida i j = Some c ->
  let pasto_final :=
    fusion_pasto (mascara_pasto_color hsv)
      (mascara_vegetacion_vi img_corregida) in
  let tierra_final := fusion_tierra (mascara_tierra_color hsv) pasto_final in
  exists p t,
    pixel pasto_final i j = Some p /\ pixel tierra_final i j = Some t
    /\ (p = 0 \/ p = 255) /\ (t = 0 \/ t = 255) /\ (p = 0 \/ t = 0).
Proof.
  intros Hq Hc pasto_final tierra_final.
  assert (pixel pasto_final i j
          = Some (Z.land (en_rango lower_green upper_green q) (umbral_vari c)))
    as Hp.
  { unfold pasto_final, fusion_pasto, bitwise_and, mascara_vegetacion_vi.
    by rewrite pixel_zip2, pixel_mascara_pasto_color, pixel_mapa2, Hq, Hc. }
  eexists _, _. split; [exact Hp|]. split.
  { unfold tierra_final, fusion_tierra, bitwise_and, bitwise_not.
    rewrite pixel_zip2, pixel_mapa2, pixel_mascara_tierra_color, Hp, Hq.
    reflexivity. }
  destruct (en_rango_binario lower_green upper_green q) as [-> | ->],
    (umbral_vari_binario c) as [-> | ->],
    (en_rango_binario lower_brown upper_brown q) as [-> | ->],
    (en_rango_binario lower_red1 upper_red1 q) as [-> | ->],
    (en_rango_binario lower_red2 upper_red2 q) as [-> | ->];
    vm_compute; auto.
Qed.

Lemma X4_fusion_binaria_y_disjunta_witness :
  exists p t,
    pixel (fusion_pasto (mascara_pasto_color franjas_hsv)
             (mascara_vegetacion_vi franjas_bgr)) 2 5 = Some p
    /\ pixel (fusion_tierra (mascara_tierra_color franjas_hsv)
                (fusion_pasto (mascara_pasto_color franjas_hsv)
                   (mascara_vegetacion_vi franjas_bgr))) 2 5 = Some t
    /\ (p = 0 \/ p = 255) /\ (t = 0 \/ t = 255) /\ (p = 0 \/ t = 0).
Proof.
  exact (X4_fusion_binaria_y_disjunta franjas_hsv franjas_bgr 2 5
           (50, 191, 255) (40, 160, 80) eq_refl eq_refl).
Defined.

(** ** Area accounting (lines 104-107, 152-155) *)




(** ** The payload (line 12) *)

Lemma split_coma_sin_coma (s : string) :
  sin_caracter "," s = true -> split_coma s = [s].
Proof.
  induction s as [|c s IH]; [reflexivity|].
  cbn [sin_caracter split_coma]. intros [Hc Hs]%andb_true_iff.
  rewrite (IH Hs). apply negb_true_iff in Hc. by rewrite Hc.
Qed.

Lemma split_coma_no_vacio (s : string) : split_coma s <> [].
Proof.
  destruct s as [|c s]; [done|]. cbn [split_coma].
  destruct (split_coma s); [done|]. by destruct (Ascii.eqb c ",").
Qed.

Lemma ultimo_segmento_String (c : ascii) (s : string) :
  ultimo_segmento (String c s)
  = if sin_caracter "," s
    then (if Ascii.eqb c "," then s else String c s)
    else ultimo_segmento s.
Proof.
  unfold ultimo_segmento. cbn [split_coma].
  destruct (sin_caracter "," s) eqn:E.
  - rewrite (split_coma_sin_coma s E). by destruct (Ascii.eqb c ",").
  - assert (exists x y l, split_coma s = x :: y :: l) as (x & y & l & Hx).
    { clear c. induction s as [|c s IH]; [discriminate E|].
      cbn [sin_caracter] in E. cbn [split_coma].
      destruct (Ascii.eqb c ",") eqn:Ec.
      - destruct (split_coma s) as [|x l] eqn:Es;
          [by destruct (split_coma_no_vacio s)|]. by eexists _, _, _.
      - simpl in E. destruct (IH E) as (x & y & l & ->). by eexists _, _, _. }
    rewrite Hx. by destruct (Ascii.eqb c ",").
Qed.

Lemma sin_coma_append_coma (pre s : string) :
  sin_caracter "," (pre ++ String "," s) = false.
Proof.
  induction pre as [|c pre IH]; [reflexivity|].
  simpl. rewrite IH. apply andb_false_r.
Qed.

(** X6.  Of the request line only what follows its last comma is
    decoded: a payload without commas is taken whole, and any prefix
    ending in a comma (a data-URI header, whatever it says) is ignored,
    so the request with the prefix decodes exactly as the bare payload
    does. *)
Theorem X6_prefijo_ignorado (py : PyLib) (codec : Cv2Codec)
  (prefijo payload : string) :
  sin_caracter "," payload = true ->
  ultimo_segmento payload = payload
  /\ ultimo_segmento (prefijo ++ String "," payload) = payload
  /\ decodificar py codec (prefijo ++ String "," payload)
     = decodificar py codec payload.
Proof.
  intros Hp.
  assert (ultimo_segmento payload = payload) as H1.
  { unfold ultimo_segmento. by rewrite split_coma_sin_coma. }
  assert (ultimo_segmento (prefijo ++ String "," payload) = payload) as H2.
  { induction prefijo as [|c pre IH]; simpl "++".
    - by rewrite ultimo_segmento_String, Hp.
    - by rewrite ultimo_segmento_String, sin_coma_append_coma. }
  split; [exact H1|]. split; [exact H2|].
  unfold decodificar. by rewrite H1, H2.
Qed.

Lemma X6_prefijo_ignorado_witness :
  ultimo_segmento ("data:image/png;base64" ++ String "," "iVBORw0KGgo=")
  = "iVBORw0KGgo=".
Proof.
  exact (proj1 (proj2 (X6_prefijo_ignorado Prueba.py Prueba.codec_pequeno
                         "data:image/png;base64" "iVBORw0KGgo=" eq_refl))).
Defined.

(** ** The request loop (lines 157-196) *)

Section Peticiones.
Variable py : PyLib.
Variable codec : Cv2Codec.
Variable color : Cv2Color.
Variable morph : Cv2Morph.

(** A request either succeeds, after two readings of the clock, or fails
    and leaves the world as it was. *)
Lemma procesar_y_medir_casos (line : string) (start_time : Q) (w : Mundo) :
  (exists d, procesar_y_medir py codec color morph line start_time w
             = (inr d, tras_leer_reloj (tras_leer_reloj w)))
  \/ (exists e, procesar_y_medir py codec color morph line start_time w
                = (inl e, w)).
Proof.
  unfold procesar_y_medir, mbind, M_bind.
  destruct (decodificar_casos py codec line) as [[img H]|[e H]].
  - left. rewrite (procesar_imagen_ok py codec color morph line img w (H w)).
    rewrite ensamblar_eq. by eexists.
  - right. rewrite (procesar_imagen_falla py codec color morph line e w (H w)).
    by eexists.
Qed.

Lemma atender_efecto (line : string) (w : Mundo) :
  exists w',
    atender py codec color morph line w = (inr tt, w')
    /\ stdin w' = stdin w
    /\ (length (stdout w') + length (stderr w')
        = S (length (stdout w) + length (stderr w)))%nat.
Proof.
  unfold atender, mbind, M_bind, try_except. unfold time_time at 1.
  change {| reloj := reloj w; tics := S (tics w); stdin := stdin w;
            stdout := stdout w; stderr := stderr w |}
    with (tras_leer_reloj w).
  destruct (procesar_y_medir_casos line (reloj w (tics w)) (tras_leer_reloj w))
    as [[d ->]|[e ->]].
  - eexists. split; [reflexivity|]. split; [reflexivity|].
    cbn [stdout stderr]. rewrite length_app. simpl. lia.
  - destruct (escribir_error_ok py "Error procesando imagen: " e
                (tras_leer_reloj w)) as (bloque & -> & _).
    eexists. split; [reflexivity|]. split; [reflexivity|].
    cbn [stdout stderr]. rewrite length_app. simpl. lia.
Qed.

(** X7.  Every request line gets exactly one answer on exactly one
    stream: [atender] never raises, leaves the pending input alone, and
    either appends the JSON of the result and a newline to [stdout]
    (three clock readings, [stderr] untouched) or appends one error block
    to [stderr] (two clock readings, [stdout] untouched). *)
Theorem X7_una_respuesta_por_peticion (line : string) (w : Mundo) :
  exists w',
    atender py codec color morph line w = (inr tt, w')
    /\ stdin w' = stdin w
    /\ ((exists d,
           (procesar_y_medir py codec color morph line (reloj w (tics w))
              (tras_leer_reloj w)).1 = inr d
           /\ stdout w' = (stdout w ++ [(json_dumps py d ++ salto)%string])%list
           /\ stderr w' = stderr w
           /\ tics w' = (tics w + 3)%nat)
        \/ (exists e bloque,
              (procesar_y_medir py codec color morph line (reloj w (tics w))
                 (tras_leer_reloj w)).1 = inl e
              /\ stdout w' = stdout w
              /\ stderr w' = (stderr w ++ [bloque])%list
              /\ tics w' = (tics w + 2)%nat)).
Proof.
  unfold atender, mbind, M_bind, try_except. unfold time_time at 1.
  change {| reloj := reloj w; tics := S (tics w); stdin := stdin w;
            stdout := stdout w; stderr := stderr w |}
    with (tras_leer_reloj w).
  destruct (procesar_y_medir_casos line (reloj w (tics w)) (tras_leer_reloj w))
    as [[d Hd]|[e He]].
  - rewrite Hd.
    eexists. split; [reflexivity|]. split; [reflexivity|].
    left. exists d. cbn [fst stdout stderr tics]. repeat split. simpl. lia.
  - rewrite He.
    destruct (escribir_error_ok py "Error procesando imagen: " e
                (tras_leer_reloj w)) as (bloque & -> & _).
    eexists. split; [reflexivity|]. split; [reflexivity|].
    right. exists e, bloque. cbn [fst stdout stderr tics]. repeat split.
    simpl. lia.
Qed.

Lemma iteracion_casos (w : Mundo) :
  exists w',
    iteracion py codec color morph w = (inr tt, w')
    /\ stdin w' = tail (stdin w)
    /\ match stdin w with
       | l :: _ =>
           if es_peticion l
           then (length (stdout w') + length (stderr w')
                 = S (length (stdout w) + length (stderr w)))%nat
           else stdout w' = stdout w /\ stderr w' = stderr w
                /\ tics w' = tics w
       | [] => w' = w
       end.
Proof.
  unfold iteracion, try_except, mbind, M_bind, mret, M_ret, readline.
  destruct (stdin w) as [|l resto] eqn:Es.
  - cbn [strip lstrip rstrip String.eqb]. unfold time_sleep, mret, M_ret.
    exists w. by rewrite Es.
  - unfold es_peticion. destruct (String.eqb (strip l) "") eqn:El.
    + unfold time_sleep, mret, M_ret. eexists. split; [reflexivity|].
      by cbn [stdin stdout stderr tics negb].
    + cbn [negb].
      destruct (atender_efecto (strip l)
                  {| reloj := reloj w; tics := tics w; stdin := resto;
                     stdout := stdout w; stderr := stderr w |})
        as (w' & -> & Hin & Hlen).
      exists w'. split; [reflexivity|]. split; [exact Hin|]. exact Hlen.
Qed.

(** X8.  A turn of the loop on a blank line (empty once stripped)
    consumes the line and does nothing else: nothing is written and the
    clock is not read.  At the end of the input a turn changes nothing
    at all. *)
Theorem X8_linea_en_blanco (w : Mundo) :
  (stdin w = [] -> iteracion py codec color morph w = (inr tt, w))
  /\ (forall l resto,
        stdin w = l :: resto -> es_peticion l = false ->
        exists w',
          iteracion py codec color morph w = (inr tt, w')
          /\ stdin w' = resto /\ stdout w' = stdout w
          /\ stderr w' = stderr w /\ tics w' = tics w).
Proof.
  destruct (iteracion_casos w) as (w' & Hi & Hin & Hc). split.
  - intros Es. rewrite Es in Hc. by rewrite Hi, Hc.
  - intros l resto Es El. rewrite Es in Hc, Hin. rewrite El in Hc.
    exists w'. by destruct Hc as (? & ? & ?).
Qed.

(** X9.  After [n] turns the loop has consumed the first [n] lines of
    the input, in order, and has written to [stdout] and [stderr]
    together exactly one entry for each of those lines that is not
    blank, and it has not raised. *)
Theorem X9_main_una_entrada_por_peticion (n : nat) (w : Mundo) :
  exists w',
    main py codec color morph n w = (inr tt, w')
    /\ stdin w' = drop n (stdin w)
    /\ (length (stdout w') + length (stderr w')
        = length (stdout w) + length (stderr w)
          + length (List.filter es_peticion (take n (stdin w))))%nat.
Proof.
  revert w. induction n as [|n IH]; intros w.
  - exists w. cbn [main]. split; [reflexivity|].
    rewrite drop_0, take_0. simpl. split; [reflexivity | lia].
  - cbn [main]. unfold mbind, M_bind.
    destruct (iteracion_casos w) as (w1 & -> & Hin & Hc).
    destruct (IH w1) as (w' & -> & Hin' & Hlen).
    exists w'. split; [reflexivity|].
    destruct (stdin w) as [|l resto] eqn:Es.
    + subst w1. rewrite Es in Hin', Hlen. rewrite Hin'.
      rewrite drop_nil. split; [reflexivity|].
      rewrite take_nil in *. exact Hlen.
    + cbn [tail] in Hin. rewrite Hin in Hin', Hlen.
      split; [exact Hin'|]. cbn [take List.filter].
      destruct (es_peticion l).
      * cbn [length]. lia.
      * destruct Hc as (Ho & He & _). rewrite Ho, He in Hlen. lia.
Qed.

End Peticiones.

Lemma X8_linea_en_blanco_witness :
  exists w',
    iteracion Prueba.py Prueba.codec_pequeno Prueba.color Referencia.cv
      (Prueba.mundo ["   "; "AAAA"]) = (inr tt, w')
    /\ stdin w' = ["AAAA"] /\ stdout w' = [] /\ stderr w' = []
    /\ tics w' = 0%nat.
Proof.
  exact (proj2 (X8_linea_en_blanco Prueba.py Prueba.codec_pequeno
                  Prueba.color Referencia.cv (Prueba.mundo ["   "; "AAAA"]))
           "   " ["AAAA"] eq_refl eq_refl).
Defined.

(** ** Blank lines (lines 160-163) *)

Lemma rstrip_vacio (s : string) :
  String.eqb (rstrip s) "" = forallb es_espacio (list_ascii_of_string s).
Proof.
  induction s as [|c s IH]; [reflexivity|].
  cbn [rstrip list_ascii_of_string forallb].
  destruct (rstrip s) as [|c' r].
  - rewrite <- IH. cbn [String.eqb]. rewrite andb_true_r.
    by destruct (es_espacio c).
  - rewrite <- IH. cbn [String.eqb]. by rewrite andb_false_r.
Qed.

(** X10.  The lines the loop skips are exactly the lines made of white
    space only: a line is handled as a request if and only if one of its
    characters is not white space. *)
Theorem X10_lineas_omitidas (l : string) :
  es_peticion l = negb (forallb es_espacio (list_ascii_of_string l)).
Proof.
  unfold es_peticion, strip. f_equal.
  induction l as [|c l IH]; [reflexivity|].
  cbn [lstrip list_ascii_of_string forallb].
  destruct (es_espacio c) eqn:E.
  - exact IH.
  - rewrite rstrip_vacio. cbn [list_ascii_of_string forallb]. by rewrite E.
Qed.

(** ** One answer, one line (lines 175-176 and 182-187) *)

Lemma todo_visible_append (s1 s2 : string) :
  todo_visible (s1 ++ s2) = todo_visible s1 && todo_visible s2.
Proof.
  induction s1 as [|c s1 IH]; [done|].
  simpl. by rewrite IH, andb_assoc.
Qed.

Lemma visible_sin_salto (s : string) :
  todo_visible s = true -> sin_caracter "010" s = true.
Proof.
  induction s as [|c s IH]; [done|].
  cbn [todo_visible sin_caracter]. intros [Hc Hs]%andb_true_iff.
  rewrite (IH Hs), andb_true_r.
  destruct (Ascii.eqb_spec c "010") as [->|]; [discriminate Hc | reflexivity].
Qed.

Lemma json_escape_char_visible (c : ascii) :
  todo_visible (json_escape_char c) = true.
Proof. destruct c as [[] [] [] [] [] [] [] []]; reflexivity. Qed.

Lemma json_string_visible (s : string) : todo_visible (json_string s) = true.
Proof.
  unfold json_string. cbn [todo_visible].
  rewrite todo_visible_append. cbn [todo_visible].
  assert (todo_visible (json_escape s) = true) as ->; [|reflexivity].
  induction s as [|c s IH]; [reflexivity|].
  cbn [json_escape]. by rewrite todo_visible_append, json_escape_char_visible.
Qed.

Lemma uint_visible (d : Decimal.uint) :
  todo_visible (NilEmpty.string_of_uint d) = true.
Proof. induction d; simpl; auto. Qed.

Lemma repr_int_visible (z : Z) : todo_visible (repr_int z) = true.
Proof.
  unfold repr_int, NilZero.string_of_int, NilZero.string_of_uint.
  destruct (Z.to_int z) as [d|d].
  - destruct d; try reflexivity; apply uint_visible.
  - cbn [todo_visible]. destruct d; try reflexivity; apply uint_visible.
Qed.

Lemma json_items_visible (py : PyLib) (d : Dict) :
  (forall x, todo_visible (repr_float py x) = true) ->
  todo_visible (json_items py d) = true.
Proof.
  intros Hf.
  assert (forall kv, todo_visible (json_item py kv) = true) as Hitem.
  { intros [k v]. unfold json_item. cbn [fst snd].
    rewrite !todo_visible_append, json_string_visible.
    destruct v as [[z|x]|s]; cbn [json_valor].
    - by rewrite repr_int_visible.
    - by rewrite Hf.
    - by rewrite json_string_visible. }
  induction d as [|kv d IH]; [reflexivity|].
  destruct d as [|kv' d]; [apply Hitem|].
  change (json_items py (kv :: kv' :: d))
    with (json_item py kv ++ ", " ++ json_items py (kv' :: d)).
  by rewrite !todo_visible_append, Hitem, IH.
Qed.

Lemma repr_float_simple_visible (x : Q) :
  todo_visible (Prueba.repr_float_simple x) = true.
Proof.
  unfold Prueba.repr_float_simple.
  rewrite !todo_visible_append, !repr_int_visible.
  repeat case_match; rewrite ?todo_visible_append, ?repr_int_visible;
    reflexivity.
Qed.

(** X11.  Whatever the result holds, its serialisation is printable
    ASCII, provided [repr] of a float is: strings are escaped character
    by character, so no newline reaches the output, and the line written
    to [stdout] ends at its only newline.  The error block on [stderr]
    is two such lines, the first being the length of the second. *)
Theorem X11_una_respuesta_una_linea (py : PyLib) (d : Dict) :
  (forall x, todo_visible (repr_float py x) = true) ->
  todo_visible (json_dumps py d) = true
  /\ sin_caracter "010" (json_dumps py d) = true
  /\ (forall prefijo e w,
        exists cabecera cuerpo : string,
          stderr (escribir_error py prefijo e w).2
          = (stderr w ++ [(cabecera ++ salto ++ cuerpo ++ salto)%string])%list
          /\ cabecera = repr_int (len cuerpo)
          /\ sin_caracter "010" cabecera = true
          /\ sin_caracter "010" cuerpo = true).
Proof.
  intros Hf.
  assert (forall d0, todo_visible (json_dumps py d0) = true) as Hd.
  { intros d0. unfold json_dumps.
    change ("{" ++ json_items py d0 ++ "}")
      with (String "{" (json_items py d0 ++ "}")).
    cbn [todo_visible]. rewrite todo_visible_append.
    by rewrite json_items_visible. }
  split; [apply Hd|]. split; [apply visible_sin_salto, Hd|].
  intros prefijo e w.
  destruct (escribir_error_ok py prefijo e w) as (bloque & -> & ->).
  cbn [snd stderr]. eexists _, _. split; [reflexivity|].
  split; [reflexivity|].
  split; apply visible_sin_salto; [apply repr_int_visible | apply Hd].
Qed.

Lemma X11_una_respuesta_una_linea_witness :
  sin_caracter "010"
    (json_dumps Prueba.py
       [("error", JStr ("Error" ++ salto ++ mensaje_imagen_nula));
        ("timestamp", JNum (PyFloat (3 # 2)))]) = true.
Proof.
  exact (proj1 (proj2 (X11_una_respuesta_una_linea Prueba.py _
                         repr_float_simple_visible))).
Defined.

(** ** The overlay string read back as a request (lines 12 and 132) *)

Lemma b64_char_sin_coma (n : N) : Ascii.eqb (b64_char n) "," = false.
Proof.
  unfold b64_char. generalize (N.to_nat n). intros k.
  do 64 (destruct k as [|k]; [reflexivity|]). reflexivity.
Qed.

Lemma b64encode_sin_coma : forall bs, sin_caracter "," (b64encode bs) = true.
Proof.
  fix IH 1. intros [|a [|b [|c resto]]]; simpl.
  - reflexivity.
  - by rewrite !b64_char_sin_coma.
  - by rewrite !b64_char_sin_coma.
  - by rewrite !b64_char_sin_coma, IH.
Qed.

Lemma ultimo_segmento_tras_coma (prefijo payload : string) :
  sin_caracter "," payload = true ->
  ultimo_segmento (prefijo ++ String "," payload) = payload.
Proof.
  intros Hp. induction prefijo as [|c pre IH]; simpl "++".
  - by rewrite ultimo_segmento_String, Hp.
  - by rewrite ultimo_segmento_String, sin_coma_append_coma.
Qed.

Lemma b64_char_sin_espacio (n : N) : es_espacio (b64_char n) = false.
Proof.
  unfold b64_char. generalize (N.to_nat n). intros k.
  do 64 (destruct k as [|k]; [reflexivity|]). reflexivity.
Qed.

Lemma b64encode_sin_espacios : forall bs,
  existsb es_espacio (list_ascii_of_string (b64encode bs)) = false.
Proof.
  fix IH 1. intros [|a [|b [|c resto]]];
    cbn [b64encode list_ascii_of_string existsb].
  - reflexivity.
  - by rewrite !b64_char_sin_espacio.
  - by rewrite !b64_char_sin_espacio.
  - by rewrite !b64_char_sin_espacio, IH.
Qed.

Lemma rstrip_sin_espacios (s : string) :
  existsb es_espacio (list_ascii_of_string s) = false -> rstrip s = s.
Proof.
  induction s as [|c s IH]; [reflexivity|].
  cbn [list_ascii_of_string existsb rstrip].
  intros [Hc Hs]%orb_false_iff. rewrite (IH Hs), Hc. by destruct s.
Qed.

Lemma strip_sin_espacios (s : string) :
  existsb es_espacio (list_ascii_of_string s) = false -> strip s = s.
Proof.
  intros H. unfold strip.
  assert (lstrip s = s) as ->; [|by apply rstrip_sin_espacios].
  destruct s as [|c s]; [reflexivity|].
  cbn [list_ascii_of_string existsb] in H.
  apply orb_false_iff in H as [Hc _]. cbn [lstrip]. by rewrite Hc.
Qed.

Lemma overlay_uri_sin_espacios (codec : Cv2Codec) (img : Imagen4) (q : Z) :
  existsb es_espacio (list_ascii_of_string (overlay_uri codec img q)) = false.
Proof.
  unfold overlay_uri. cbn [append list_ascii_of_string existsb].
  by rewrite b64encode_sin_espacios.
Qed.

(** X12.  An [overlay_image] string, sent back as a request line, is
    answered with a result: the loop hands it over unchanged (it holds
    no white space), line 12 keeps exactly its base64 text (which holds
    no comma), and, given that [b64decode] inverts [b64encode] on the
    JPEG and that [imdecode] reads it, the image is decoded and the
    request writes one line to [stdout] and nothing to [stderr]. *)
Theorem X12_overlay_como_peticion (py : PyLib) (codec emisor : Cv2Codec)
  (color : Cv2Color) (morph : Cv2Morph)
  (img_final : Imagen4) (calidad : Z) (img : Imagen) (w : Mundo) :
  let uri := overlay_uri emisor img_final calidad in
  let buffer := imencode_jpg emisor img_final calidad in
  b64decode py (b64encode buffer) = inr buffer ->
  imdecode codec buffer = ImdecodeOk img ->
  strip uri = uri
  /\ es_peticion uri = true
  /\ ultimo_segmento uri = b64encode buffer
  /\ decodificar py codec uri w = (inr img, w)
  /\ exists d w',
       atender py codec color morph uri w = (inr tt, w')
       /\ stdout w' = (stdout w ++ [(json_dumps py d ++ salto)%string])%list
       /\ stderr w' = stderr w.
Proof.
  intros uri buffer Hb Hi.
  assert (strip uri = uri) as Hs
    by apply strip_sin_espacios, overlay_uri_sin_espacios.
  assert (ultimo_segmento uri = b64encode buffer) as Hu.
  { unfold uri, overlay_uri. fold buffer.
    change ("data:image/jpeg;base64," ++ b64encode buffer)
      with ("data:image/jpeg;base64" ++ String "," (b64encode buffer)).
    apply ultimo_segmento_tras_coma, b64encode_sin_coma. }
  assert (forall w0, decodificar py codec uri w0 = (inr img, w0)) as Hd.
  { intros w0. apply (decodificar_ok py codec uri buffer img w0); [|exact Hi].
    by rewrite Hu. }
  split; [exact Hs|]. split; [by unfold es_peticion; rewrite Hs|].
  split; [exact Hu|]. split; [apply Hd|].
  unfold atender, mbind, M_bind, try_except. unfold time_time at 1.
  change {| reloj := reloj w; tics := S (tics w); stdin := stdin w;
            stdout := stdout w; stderr := stderr w |}
    with (tras_leer_reloj w).
  unfold procesar_y_medir, mbind, M_bind.
  rewrite (procesar_imagen_ok py codec color morph uri img (tras_leer_reloj w)
             (Hd (tras_leer_reloj w))).
  rewrite ensamblar_eq. cbn [time_time fst snd].
  eexists _, _. split; [reflexivity|]. split; reflexivity.
Qed.

Lemma X12_overlay_como_peticion_witness :
  let uri :=
    overlay_uri Prueba.codec_crudo [[(10, 20, 30, 255); (40, 50, 60, 255)]] 85 in
  decodificar Prueba.py Prueba.codec_crudo uri (Prueba.mundo [])
  = (inr [[(10, 20, 30); (40, 50, 60)]], Prueba.mundo [])
  /\ exists d w',
       atender Prueba.py Prueba.codec_crudo Prueba.color Referencia.cv uri
         (Prueba.mundo []) = (inr tt, w')
       /\ stdout w' = [(json_dumps Prueba.py d ++ salto)%string]
       /\ stderr w' = [].
Proof.
  intros uri.
  destruct (X12_overlay_como_peticion Prueba.py Prueba.codec_crudo
              Prueba.codec_crudo Prueba.color Referencia.cv
              [[(10, 20, 30, 255); (40, 50, 60, 255)]] 85
              [[(10, 20, 30); (40, 50, 60)]] (Prueba.mundo []))
    as (_ & _ & _ & Hd & Ha).
  - vm_compute. reflexivity.
  - vm_compute. reflexivity.
  - split; [exact Hd | exact Ha].
Defined.

(** ** The overlay of an analysed image (lines 20-117) *)

Lemma pixel_en_plano {A} (a n : nat) (m : list (list A)) (i j : nat) :
  es_plano a n m -> (i < a)%nat -> (j < n)%nat ->
  exists x, pixel m i j = Some x.
Proof.
  intros [Ha Hn] Hi Hj. unfold pixel.
  destruct (lookup_lt_is_Some_2 m i) as [fila Hf]; [lia|].
  rewrite Hf. simpl. apply lookup_lt_is_Some_2.
  rewrite Forall_forall in Hn.
  rewrite (Hn fila); [exact Hj|].
  apply list_elem_of_lookup. eauto.
Qed.

(** X13.  With libraries that keep the size of their source, both final
    masks and the overlay have exactly the size of the decoded image, so
    the masked assignments of lines 116-117 address every pixel; and each
    pixel of the overlay is one of three values: the soil colour where
    the final soil mask is positive, else the grass colour where the
    final grass mask is positive, else fully transparent. *)
Theorem X13_overlay_de_analizar (color : Cv2Color) (morph : Cv2Morph)
  (img : Imagen) :
  FormaColor color -> FormaMorph morph ->
  es_plano (alto img) (ancho img) img ->
  let an := analizar color morph img in
  es_plano (alto img) (ancho img) (mascara_pasto_final an)
  /\ es_plano (alto img) (ancho img) (mascara_tierra_final an)
  /\ es_plano (alto img) (ancho img) (overlay an)
  /\ (forall i j, (i < alto img)%nat -> (j < ancho img)%nat ->
        exists p t,
          pixel (mascara_pasto_final an) i j = Some p
          /\ pixel (mascara_tierra_final an) i j = Some t
          /\ pixel (overlay an) i j
             = Some (if 0 <? t then color_tierra
                     else if 0 <? p then color_pasto else (0, 0, 0, 0))).
Proof.
  intros Hcolor Hmorph Himg an.
  pose proof (corregir_iluminacion_forma color Hcolor _ _ img Himg) as Hc.
  pose proof (a_hsv_forma color Hcolor _ _ _ Hc) as Hh.
  destruct (clasificar_forma morph Hmorph (alto img) (ancho img)
              (Z.of_nat (alto img) * Z.of_nat (ancho img)) _ _ Hh Hc)
    as [Hp Ht].
  unfold an, analizar.
  destruct (clasificar morph (Z.of_nat (alto img) * Z.of_nat (ancho img))
              (a_hsv color (corregir_iluminacion color img))
              (corregir_iluminacion color img)) as [mp mt].
  cbn [fst snd] in Hp, Ht.
  cbn [mascara_pasto_final mascara_tierra_final overlay].
  split; [exact Hp|]. split; [exact Ht|]. split.
  - unfold crear_overlay, pintar, zeros4.
    apply es_plano_zip2; [|exact Ht].
    apply es_plano_zip2; [|exact Hp].
    apply es_plano_replicate.
  - intros i j Hi Hj.
    destruct (pixel_en_plano _ _ mp i j Hp Hi Hj) as [p Hpp].
    destruct (pixel_en_plano _ _ mt i j Ht Hi Hj) as [t Htt].
    exists p, t. split; [exact Hpp|]. split; [exact Htt|].
    unfold crear_overlay.
    apply pixel_pintar; [|exact Htt].
    apply pixel_pintar; [|exact Hpp].
    by apply pixel_replicate.
Qed.

Lemma X13_overlay_de_analizar_witness :
  let an := analizar Prueba.color Referencia.cv franjas in
  exists p t,
    pixel (mascara_pasto_final an) 0 9 = Some p
    /\ pixel (mascara_tierra_final an) 0 9 = Some t
    /\ pixel (overlay an) 0 9
       = Some (if 0 <? t then color_tierra
               else if 0 <? p then color_pasto else (0, 0, 0, 0)).
Proof.
  refine (proj2 (proj2 (proj2
            (X13_overlay_de_analizar Prueba.color Referencia.cv franjas
               prueba_color_forma referencia_forma _))) 0%nat 9%nat _ _).
  - split; [reflexivity | repeat constructor].
  - vm_compute. lia.
  - vm_compute. lia.
Defined.

(** ** The processing time (lines 166-171) *)

Lemma dict_get_dict_set (d : Dict) (k : string) (v : JValor) :
  dict_get (dict_set d k v) k = Some v.
Proof.
  induction d as [|[k' v'] d IH]; simpl.
  - by rewrite String.eqb_refl.
  - destruct (String.eqb k' k) eqn:E; simpl.
    + by rewrite String.eqb_refl.
    + by rewrite E.
Qed.

Lemma redondear_par_no_negativo (x : Q) : (0 <= x)%Q -> 0 <= redondear_par x.
Proof.
  intros Hx.
  destruct (redondear_par_cotas x 0 (Qfloor x + 1)) as [H _];
    [exact Hx | | exact H].
  apply Qlt_le_weak, Qlt_floor.
Qed.

Lemma redondear_par_negativo (x : Q) :
  (x <= inject_Z (-1))%Q -> redondear_par x <= -1.
Proof.
  intros Hx.
  destruct (redondear_par_cotas x (Qfloor x) (-1)) as [_ H];
    [apply Qfloor_le | exact Hx | exact H].
Qed.

(** X14.  The reported [tiempo_procesamiento] follows the wall clock:
    it is not negative when the clock read after the analysis is not
    before the start time, and it is negative, at most -0.001, when the
    clock has stepped back by a millisecond or more in between. *)
Theorem X14_duracion_y_reloj (py : PyLib) (codec : Cv2Codec)
  (color : Cv2Color) (morph : Cv2Morph) (line : string) (start_time : Q)
  (w : Mundo) (d : Dict) :
  (procesar_y_medir py codec color morph line start_time w).1 = inr d ->
  exists x,
    dict_get d "tiempo_procesamiento" = Some (JNum (PyFloat x))
    /\ ((start_time <= reloj w (S (tics w)))%Q -> (0 <= x)%Q)
    /\ ((reloj w (S (tics w)) <= start_time - (1 # 1000))%Q ->
        (x <= - (1 # 1000))%Q).
Proof.
  unfold procesar_y_medir, mbind, M_bind.
  destruct (decodificar_casos py codec line) as [[img H]|[e H]].
  - rewrite (procesar_imagen_ok py codec color morph line img w (H w)).
    rewrite ensamblar_eq. unfold tras_leer_reloj, time_time.
    cbn [fst snd reloj tics mret M_ret]. intros [= <-].
    rewrite dict_get_dict_set. cbn [py_round].
    change (10 ^ Z.of_nat 3) with 1000.
    set (fin := reloj w (S (tics w))).
    eexists. split; [reflexivity|]. split; intros Hr.
    + apply Qle_shift_div_l; [reflexivity|]. rewrite Qmult_0_l.
      change 0%Q with (inject_Z 0). rewrite <- Zle_Qle.
      apply redondear_par_no_negativo.
      change (inject_Z 1000) with 1000%Q. lra.
    + apply Qle_shift_div_r; [reflexivity|].
      assert (- (1 # 1000) * inject_Z 1000 == inject_Z (-1))%Q as ->
        by reflexivity.
      rewrite <- Zle_Qle. apply redondear_par_negativo.
      change (inject_Z 1000) with 1000%Q. change (inject_Z (-1)) with (-1)%Q.
      lra.
  - rewrite (procesar_imagen_falla py codec color morph line e w (H w)).
    discriminate.
Qed.

Lemma X14_duracion_y_reloj_witness :
  let r :=
    (procesar_y_medir Prueba.py Prueba.codec_pequeno Prueba.color
       Referencia.cv (Prueba.peticion franjas) 1700000000%Q
       (tras_leer_reloj (Prueba.mundo []))).1 in
  exists d x,
    r = inr d
    /\ dict_get d "tiempo_procesamiento" = Some (JNum (PyFloat x))
    /\ (0 <= x)%Q.
Proof.
  intros r.
  assert (exists d, r = inr d) as [d Hr]
    by (unfold r; vm_compute; eexists; reflexivity).
  destruct (X14_duracion_y_reloj Prueba.py Prueba.codec_pequeno
              Prueba.color Referencia.cv (Prueba.peticion franjas)
              1700000000%Q (tras_leer_reloj (Prueba.mundo [])) d Hr)
    as (x & Hx & Hpos & _).
  exists d, x. split; [exact Hr|]. split; [exact Hx|].
  apply Hpos. vm_compute. discriminate.
Defined.

(** ** What line 102 leaves in both masks *)

Lemma solapadas_en_un_pixel (m1 m2 : Plano) (i j : nat) (x y : Z) :
  pixel m1 i j = Some x -> pixel m2 i j = Some y ->
  x <> 0 -> y <> 0 -> solapadas m1 m2 = true.
Proof.
  intros H1 H2 Hx Hy. unfold solapadas. apply existsb_exists.
  exists true. split; [|reflexivity].
  pose proof (pixel_zip2 (fun x y : Z => negb (x =? 0) && negb (y =? 0))
                m1 m2 i j) as Hp.
  rewrite H1, H2 in Hp.
  destruct (Z.eqb_spec x 0) as [|_]; [done|].
  destruct (Z.eqb_spec y 0) as [|_]; [done|].
  cbn [negb andb] in Hp. unfold pixel in Hp.
  destruct (zip2 _ m1 m2 !! i) as [fila|] eqn:Ef; [|discriminate Hp].
  cbn in Hp. apply in_concat. exists fila.
  split; apply list_elem_of_In; eapply list_elem_of_lookup_2; eassumption.
Qed.

(** X15.  At a pixel where the cleaned grass mask is [p] and the
    cleaned soil mask is [t], line 102 keeps [p] and leaves the soil
    mask at the bitwise AND of [t] and [255 - p].  So a grass value of
    255 clears the soil pixel and a grass value of 0 keeps it; but where
    the soil mask is 255 and the grass mask is strictly between 0 and
    255, as on a blurred border, the soil mask is left at [255 - p] and
    the pixel is non-zero in both final masks. *)
Theorem X15_solape_tras_la_exclusion (cv : Cv2Morph) (total_pixels : Z)
  (pasto_color tierra_color vegetacion_vi : Plano) (i j : nat) (p t : Z) :
  let pasto :=
    limpiar_pasto cv total_pixels (fusion_pasto pasto_color vegetacion_vi) in
  let tierra :=
    limpiar_tierra cv total_pixels
      (fusion_tierra tierra_color
         (fusion_pasto pasto_color vegetacion_vi)) in
  let finales :=
    mascaras_finales cv total_pixels pasto_color tierra_color vegetacion_vi in
  pixel pasto i j = Some p ->
  pixel tierra i j = Some t ->
  0 <= p <= 255 ->
  pixel finales.1 i j = Some p
  /\ pixel finales.2 i j = Some (Z.land t (255 - p))
  /\ (p = 255 -> pixel finales.2 i j = Some 0)
  /\ (p = 0 -> 0 <= t <= 255 -> pixel finales.2 i j = Some t)
  /\ (t = 255 -> 0 < p < 255 ->
      pixel finales.2 i j = Some (255 - p)
      /\ solapadas finales.1 finales.2 = true).
Proof.
  intros pasto tierra finales Hp Ht Hr.
  assert (pixel finales.1 i j = Some p) as H1 by exact Hp.
  assert (pixel finales.2 i j = Some (Z.land t (255 - p))) as H2.
  { unfold finales, mascaras_finales. cbn [snd]. fold pasto tierra.
    unfold excluir, bitwise_and, bitwise_not.
    rewrite pixel_zip2, pixel_mapa2, Hp, Ht. cbn [fmap option_fmap option_map].
    by rewrite not8_resta. }
  split; [exact H1|]. split; [exact H2|]. split; [|split].
  - intros ->. rewrite H2. change (255 - 255) with 0. by rewrite Z.land_0_r.
  - intros -> Hrt. rewrite H2. change (255 - 0) with (Z.ones 8).
    rewrite Z.land_ones by lia. f_equal. apply Z.mod_small. lia.
  - intros -> Hpp.
    assert (Z.land 255 (255 - p) = 255 - p) as E.
    { change 255 with (Z.ones 8) at 1.
      rewrite Z.land_comm, Z.land_ones by lia. apply Z.mod_small. lia. }
    rewrite E in H2. split; [exact H2|].
    apply (solapadas_en_un_pixel _ _ i j p (255 - p) H1 H2); lia.
Qed.

Lemma X15_solape_tras_la_exclusion_witness :
  let finales :=
    mascaras_finales Referencia.cv 84 (mascara_pasto_color franjas_hsv)
      (mascara_tierra_color franjas_hsv) (mascara_vegetacion_vi franjas_bgr) in
  pixel finales.1 0 10 = Some 80
  /\ pixel finales.2 0 10 = Some 175
  /\ solapadas finales.1 finales.2 = true.
Proof.
  intros finales.
  destruct (X15_solape_tras_la_exclusion Referencia.cv 84
              (mascara_pasto_color franjas_hsv)
              (mascara_tierra_color franjas_hsv)
              (mascara_vegetacion_vi franjas_bgr) 0 10 80 255)
    as (H1 & _ & _ & _ & H3).
  - vm_compute. reflexivity.
  - vm_compute. reflexivity.
  - lia.
  - destruct (H3 eq_refl) as [H2 Hs]; [lia|].
    split; [exact H1|]. split; [exact H2 | exact Hs].
Defined.
